(** * Stress-Detection backend (Code/backend/app.py): model and properties

    The Flask backend keeps a handful of module-level globals (feature
    histories, the smoothed level, the emotion throttle, the camera session)
    and updates them from a capture worker.  This file embeds those globals
    as explicit records, the functions of [app.py] as state-passing
    functions over them, and Python's [float] as the kernel's binary64
    floats, so that comparisons with NaN behave as they do in CPython. *)

From Stdlib Require Import ZArith Floats.
From Stdlib Require Uint63.
From stdpp Require Import gmap strings list fin_maps.

Set Warnings "-inexact-float".

Open Scope string_scope.
Open Scope list_scope.
Open Scope nat_scope.

(** ** Python floats *)

Module PyFloat.

(** Python's builtin [max(a, b)]: the first argument is kept unless a
    later one is strictly greater ([b > a]). *)
Definition py_max (a b : float) : float :=
  if (a <? b)%float then b else a.

(** Python's builtin [min(a, b)]: the first argument is kept unless a
    later one is strictly smaller ([b < a]). *)
Definition py_min (a b : float) : float :=
  if (b <? a)%float then b else a.

(** [float(n)] for an integer [n] (exact below [2^53], which covers
    pixel coordinates). *)
Definition float_of_Z (n : Z) : float :=
  if (n <? 0)%Z then (- of_uint63 (Uint63.of_Z (- n)))%float
  else of_uint63 (Uint63.of_Z n).

(** [x >= y] on floats. *)
Definition geb (x y : float) : bool := (y <=? x)%float.

End PyFloat.
Import PyFloat.

(** ** Labels *)

(** [level_to_label], app.py lines 73-78. *)
Definition level_to_label (level : float) : string :=
  if geb level 0.75 then "High"
  else if geb level 0.35 then "Moderate"
  else "Low".

(** ** numpy reductions and libm functions *)

(** [np.maximum]/[np.minimum] on two doubles: NaN is propagated, otherwise
    the larger (smaller) operand is kept. *)
Definition np_maximum (a b : float) : float :=
  if is_nan a then a else if is_nan b then b
  else if (a <? b)%float then b else a.

Definition np_minimum (a b : float) : float :=
  if is_nan a then a else if is_nan b then b
  else if (b <? a)%float then b else a.

(** [np.max(history)] and [np.min(history)] on a Python list of floats: the
    reduction of the list by [np.maximum] ([np.minimum]).  numpy raises on
    an empty list; [_normalize_points] only reduces a history it has just
    appended to, so that arm ([nan] here) is never taken. *)
Definition np_max (history : list float) : float :=
  match history with
  | [] => nan
  | x :: rest => fold_left np_maximum rest x
  end.

Definition np_min (history : list float) : float :=
  match history with
  | [] => nan
  | x :: rest => fold_left np_minimum rest x
  end.

(** [np.tanh] on a double: the C library's [tanh], which returns NaN on a
    NaN argument (IEEE 754 propagation); [libm_tanh] gives its value on
    every other argument. *)
Definition np_tanh (libm_tanh : float -> float) (x : float) : float :=
  if is_nan x then nan else libm_tanh x.

(** ** Feature Normalizer *)

Definition _HISTORY_MAX_PER_FEATURE : nat := 300.

(** The slice [l[-n:]] for [n > 0]: the last [n] elements of [l], all of
    [l] when it is shorter. *)
Definition py_last (n : nat) {A} (l : list A) : list A :=
  drop (length l - n) l.

(** The threshold label computed inline on line 163. *)
Definition stress_label (stress_value : float) : string :=
  if geb stress_value 0.75 then "High"
  else if geb stress_value 0.35 then "Moderate" else "Low".

Section FeatureNormalizer.

Variable libm_tanh : float -> float.

(** Lines 147-151: fetch the key's history (a fresh list when the key is
    absent), append the value, keep the last 300, store it back. *)
Definition push_history (value : float) (feature_key : string)
    (hists : gmap string (list float)) : list float :=
  let history := default [] (hists !! feature_key) in
  let history := history ++ [value] in
  if (_HISTORY_MAX_PER_FEATURE <? length history)%nat
  then py_last _HISTORY_MAX_PER_FEATURE history
  else history.

(** [_normalize_points], app.py lines 141-164, over the dictionary
    [_feature_histories]: returns the updated dictionary and the pair
    (level, label). *)
Definition _normalize_points (value : float) (feature_key : string)
    (hists : gmap string (list float))
  : gmap string (list float) * (float * string) :=
  let history := push_history value feature_key hists in
  let hists' := <[feature_key := history]> hists in
  if (length history <? 5)%nat || (np_max history =? np_min history)%float
  then (hists', (0.5%float, "initializing"))
  else
    let vmin := np_min history in
    let vmax := np_max history in
    let normalized_value :=
      (abs (value - vmin) / py_max (abs (vmax - vmin)) 1e-6)%float in
    let stress_value := np_tanh libm_tanh normalized_value in
    let stress_value := py_max 0.0 (py_min 1.0 stress_value) in
    if is_nan stress_value
    then (hists', (0.5%float, "calculating"))
    else (hists', (stress_value, stress_label stress_value)).

(** A run of the normalizer over a sequence of calls (key, value). *)
Definition normalize_all (calls : list (string * float))
    (hists : gmap string (list float)) : gmap string (list float) :=
  fold_left (fun h c => fst (_normalize_points c.2 c.1 h)) calls hists.

End FeatureNormalizer.

(** The values a sequence of calls passes under one key, in call order. *)
Definition inserted_under (key : string) (calls : list (string * float))
  : list float :=
  map snd (filter (fun c => c.1 = key) calls).

(** ** Summaries, landmarks and what the providers report on a frame *)

(** The dictionary [{"level": .., "label": .., "faces": ..}] published as
    [latest_summary]. *)
Record Summary := {
  level : float;
  label : string;
  faces : Z;
}.

(** A landmark [(x, y)] and a bounding box [(x, y, w, h)], in pixels. *)
Definition point : Type := Z * Z.
Definition bbox : Type := Z * Z * Z * Z.

(** What running the try block of [_ensure_models_loaded] does in the
    current environment: it raises with a message while loading the
    [step]-th object (0: a model file is missing, 1: detector, 2: shape
    predictor, 3: emotion classifier), or it loads all three. *)
Inductive load_outcome :=
| LoadRaises (step : nat) (msg : string)
| LoadOk.

(** The outputs of the external providers on one frame.  The estimator
    only looks at the frame through these calls. *)
Record Frame := {
  (** outcome of loading the models, should this frame trigger it *)
  load : load_outcome;
  (** [gray.shape]: rows and columns of the grayscale image *)
  gray_rows : Z;
  gray_cols : Z;
  (** [_detector(gray, 0)], each rectangle as [face_utils.rect_to_bb] *)
  detections : list bbox;
  (** [face_utils.shape_to_np(_predictor(gray, detections[0]))] *)
  shape_np : list point;
  (** [int(np.argmax(preds))] of the emotion classifier on the face crop;
      [None] when resizing or predicting raises *)
  emotion_argmax : option nat;
  (** [face_cascade.detectMultiScale(gray, ...)] *)
  haar_faces : list bbox;
  (** [eye_cascade.detectMultiScale(roi_gray, ...)] on the first face *)
  haar_eyes : list bbox;
  (** [edges.mean()] of the Canny edges of the face's top strip *)
  edges_mean : float;
}.

(** [face_utils.FACIAL_LANDMARKS_IDXS] of imutils (68-point predictor):
    the index range (begin, end) of each named region. *)
Definition FACIAL_LANDMARKS_IDXS (region : string) : nat * nat :=
  if String.eqb region "mouth" then (48, 68)%nat
  else if String.eqb region "right_eyebrow" then (17, 22)%nat
  else if String.eqb region "left_eyebrow" then (22, 27)%nat
  else if String.eqb region "right_eye" then (36, 42)%nat
  else if String.eqb region "left_eye" then (42, 48)%nat
  else if String.eqb region "nose" then (27, 36)%nat
  else (0, 17)%nat.

(** The slice [l[b:e]] for non-negative [b] and [e]. *)
Definition py_slice {A} (be : nat * nat) (l : list A) : list A :=
  take (be.2 - be.1) (drop be.1 l).

(** Length of the slice [a[start:stop]] of an axis of length [n], for a
    non-negative [start]; a negative [stop] counts from the end. *)
Definition slice_len (start stop n : Z) : Z :=
  let start' := Z.min start n in
  let stop' := if (stop <? 0)%Z then Z.max (stop + n) 0 else Z.min stop n in
  Z.max 0 (stop' - start').

(** ** Module-level globals *)

(** The lazily loaded models: [_detector], [_predictor] and
    [_emotion_classifier] are opaque objects, recorded as [true] once they
    are not [None]. *)
Record Models := {
  _dlib_ready : bool;
  _dlib_error : option string;
  _detector : bool;
  _predictor : bool;
  _emotion_classifier : bool;
}.

(** The globals the accurate pipeline reads and writes. *)
Record Estimator := {
  _feature_histories : gmap string (list float);
  _ema_level : option float;
  _frame_count : Z;
  _last_emotion_label : string;
  _last_face_bb : option bbox;
  _last_left_eb : option (list point);
  _last_right_eb : option (list point);
  _last_shape_points : option (list point);
}.

(** The globals as the module initialises them (lines 50-70). *)
Definition initial_estimator : Estimator := {|
  _feature_histories := ∅;
  _ema_level := None;
  _frame_count := 0;
  _last_emotion_label := "unknown";
  _last_face_bb := None;
  _last_left_eb := None;
  _last_right_eb := None;
  _last_shape_points := None;
|}.

Definition _EMA_ALPHA : float := 0.3.

(** [_ensure_models_loaded], lines 81-99.  On a raise the objects loaded
    before the failing step stay assigned. *)
Definition _ensure_models_loaded (env : load_outcome) (m : Models)
  : Models * bool :=
  if negb (_dlib_ready m) then (m, false)
  else if _detector m then (m, true)
  else match env with
       | LoadOk =>
           ({| _dlib_ready := true; _dlib_error := _dlib_error m;
               _detector := true; _predictor := true;
               _emotion_classifier := true |}, true)
       | LoadRaises step msg =>
           ({| _dlib_ready := false; _dlib_error := Some msg;
               _detector := (1 <? step)%nat;
               _predictor := _predictor m || (2 <? step)%nat;
               _emotion_classifier := _emotion_classifier m |}, false)
       end.

(** ** Stress Estimator *)

(** Stable insertion sort by a key, as [sorted(xs, key=...)]. *)
Fixpoint insert_by {A} (key : A -> Z) (x : A) (l : list A) : list A :=
  match l with
  | [] => [x]
  | y :: rest =>
      if (key x <=? key y)%Z then x :: y :: rest
      else y :: insert_by key x rest
  end.

Definition sorted_by {A} (key : A -> Z) (l : list A) : list A :=
  foldr (insert_by key) [] l.

(** Lines 296-299: the emotion adjustment of the fused level. *)
Definition emotion_adjust (emotion_label : string) (level_fused : float)
  : float :=
  let is_emotion_stressed :=
    String.eqb emotion_label "scared" || String.eqb emotion_label "sad" in
  if is_emotion_stressed then py_max level_fused 0.75 else level_fused.

(** Lines 301-306: the exponential moving average of the level. *)
Definition ema_update (ema : option float) (level_fused : float) : float :=
  match ema with
  | None => level_fused
  | Some prev => (_EMA_ALPHA * level_fused + (1.0 - _EMA_ALPHA) * prev)%float
  end.

(** The class names indexed by the classifier's argmax (line 289). *)
Definition EMOTIONS : list string :=
  ["angry"; "disgust"; "scared"; "happy"; "sad"; "surprised"; "neutral"].

(** Lines 274-294: the throttled emotion query.  Returns the label used
    for this frame with the updated [_frame_count] and
    [_last_emotion_label].  Any exception inside the try block keeps the
    previous label (the counter has already been advanced). *)
Definition emotion_gate (fr : Frame) (bb : bbox)
    (frame_count : Z) (last_label : string) : string * Z * string :=
  let '(x, y, w, h) := bb in
  let x := Z.max 0 x in
  let y := Z.max 0 y in
  let roi_size :=
    (slice_len y (y + h) (gray_rows fr) * slice_len x (x + w) (gray_cols fr))%Z in
  if (roi_size =? 0)%Z then (last_label, frame_count, last_label)
  else
    let frame_count := ((frame_count + 1) mod 1000000)%Z in
    if (frame_count mod 5 =? 0)%Z || String.eqb last_label "unknown" then
      match emotion_argmax fr with
      | Some i =>
          match EMOTIONS !! i with
          | Some emotion_label => (emotion_label, frame_count, emotion_label)
          | None => (last_label, frame_count, last_label)
          end
      | None => (last_label, frame_count, last_label)
      end
    else (last_label, frame_count, last_label).

Section StressEstimator.

(** The C library's [tanh], [hypot] and [exp] behind [np.tanh],
    [math.hypot] and [math.exp]. *)
Variable libm_tanh : float -> float.
Variable libm_hypot : float -> float -> float.
Variable libm_exp : float -> float.

(** [_euclidean], lines 137-138. *)
Definition _euclidean (p1 p2 : point) : float :=
  libm_hypot (float_of_Z (p1.1 - p2.1)) (float_of_Z (p1.2 - p2.2)).

(** [_heuristic_from_opencv], lines 104-134. *)
Definition _heuristic_from_opencv (fr : Frame) : Summary :=
  match haar_faces fr with
  | [] => {| level := 0.0; label := "Low"; faces := 0 |}
  | (x, y, w, h) :: _ =>
      let eyes := haar_eyes fr in
      let scale :=
        match take 2 (sorted_by (fun e : bbox => e.1.1.1) eyes) with
        | [(ex1, ey1, ew1, eh1); (ex2, ey2, ew2, eh2)] =>
            let eye_center_1 :=
              ((float_of_Z ex1 + float_of_Z ew1 / 2.0)%float,
               (float_of_Z ey1 + float_of_Z eh1 / 2.0)%float) in
            let eye_center_2 :=
              ((float_of_Z ex2 + float_of_Z ew2 / 2.0)%float,
               (float_of_Z ey2 + float_of_Z eh2 / 2.0)%float) in
            let eye_dist :=
              libm_hypot (eye_center_1.1 - eye_center_2.1)%float
                         (eye_center_1.2 - eye_center_2.2)%float in
            py_max eye_dist 1.0
        | _ => py_max (float_of_Z w * 0.5)%float 1.0
        end in
      let density := (edges_mean fr / 255.0)%float in
      let norm :=
        py_min (py_max (density * (float_of_Z w / scale) * 0.5)%float 0.0)
               3.0 in
      let level := py_max 0.0 (py_min 1.0 (libm_exp (- norm)%float)) in
      {| level := level; label := level_to_label level;
         faces := Z.of_nat (length (haar_faces fr)) |}
  end.

(** [_ear], lines 219-228. *)
Definition _ear (eye_pts : list point) : float :=
  match eye_pts with
  | [p0; p1; p2; p3; p4; p5] =>
      let a := _euclidean p1 p5 in
      let b := _euclidean p2 p4 in
      let c := _euclidean p0 p3 in
      if (c <=? 1e-6)%float then 0.3%float
      else ((a + b) / (2.0 * c))%float
  | _ => 0.3%float
  end.

(** [_mar], lines 239-254; an index out of range is the caught
    exception. *)
Definition _mar (mouth : list point) : float :=
  match mouth !! 0%nat, mouth !! 6%nat, mouth !! 2%nat, mouth !! 10%nat,
        mouth !! 4%nat, mouth !! 8%nat, mouth !! 3%nat, mouth !! 9%nat with
  | Some p48, Some p54, Some p50, Some p58,
    Some p52, Some p56, Some p51, Some p57 =>
      let horiz := _euclidean p48 p54 in
      let vert :=
        ((_euclidean p50 p58 + _euclidean p52 p56 + _euclidean p51 p57)
         / 3.0)%float in
      if (horiz <=? 1e-6)%float then 0.4%float else (vert / horiz)%float
  | _, _, _, _, _, _, _, _ => 0.4%float
  end.

(** Line 271: the weighted fusion of the four normalized features. *)
Definition fuse (l_eb l_eye l_mouth l_chin : float) : float :=
  ((0.35 * l_eb) + (0.30 * l_eye) + (0.25 * l_mouth) + (0.10 * l_chin))%float.

(** Lines 174-311 of [_accurate_from_dlib], once the models are loaded. *)
Definition accurate_body (fr : Frame) (st : Estimator)
  : Estimator * Summary :=
  match detections fr with
  | [] => (st, {| level := 0.0; label := "Low"; faces := 0 |})
  | rect :: _ =>
      let n_faces := Z.of_nat (length (detections fr)) in
      let shape_np := shape_np fr in
      let right_eb := py_slice (FACIAL_LANDMARKS_IDXS "right_eyebrow") shape_np in
      let left_eb := py_slice (FACIAL_LANDMARKS_IDXS "left_eyebrow") shape_np in
      let '(fx, fy, fw, fh) := rect in
      let st := {| _feature_histories := _feature_histories st;
                   _ema_level := _ema_level st;
                   _frame_count := _frame_count st;
                   _last_emotion_label := _last_emotion_label st;
                   _last_face_bb := Some (fx, fy, fw, fh);
                   _last_left_eb := Some left_eb;
                   _last_right_eb := Some right_eb;
                   _last_shape_points := Some shape_np |} in
      (* [left_eb[-1]] and [right_eb[0]] exist unless a slice is empty,
         the case of the early return on lines 199-200 *)
      match last left_eb, head right_eb with
      | Some left_tip, Some right_tip =>
          let distq := _euclidean left_tip right_tip in
          let face_w := py_max 1.0 (float_of_Z fw) in
          let face_h := py_max 1.0 (float_of_Z fh) in
          (* eyebrows *)
          let eb_norm := (distq / face_w)%float in
          let eb_metric := py_max 0.0 (py_min 1.0 (1.0 - eb_norm)%float) in
          let '(hists, (l_eb, _)) :=
            _normalize_points libm_tanh eb_metric "eyebrow"
                              (_feature_histories st) in
          (* eyes *)
          let left_eye := py_slice (FACIAL_LANDMARKS_IDXS "left_eye") shape_np in
          let right_eye := py_slice (FACIAL_LANDMARKS_IDXS "right_eye") shape_np in
          let ear_l := _ear left_eye in
          let ear_r := _ear right_eye in
          let eye_metric :=
            py_max 0.0 (py_min 1.0 (1.0 - py_min ear_l ear_r)%float) in
          let '(hists, (l_eye, _)) :=
            _normalize_points libm_tanh eye_metric "eyes" hists in
          (* mouth *)
          let mouth := py_slice (FACIAL_LANDMARKS_IDXS "mouth") shape_np in
          let mar := _mar mouth in
          let mouth_metric := py_max 0.0 (py_min 1.0 mar) in
          let '(hists, (l_mouth, _)) :=
            _normalize_points libm_tanh mouth_metric "mouth" hists in
          (* chin *)
          let chin_dist :=
            match shape_np !! 8%nat, shape_np !! 33%nat with
            | Some chin_pt, Some nose_tip =>
                (_euclidean nose_tip chin_pt / face_h)%float
            | _, _ => 0.3%float
            end in
          let chin_metric := py_max 0.0 (py_min 1.0 chin_dist) in
          let '(hists, (l_chin, _)) :=
            _normalize_points libm_tanh chin_metric "chin" hists in
          (* fusion, emotion override, smoothing *)
          let level_fused := fuse l_eb l_eye l_mouth l_chin in
          let '(emotion_label, frame_count, last_label) :=
            emotion_gate fr (fx, fy, fw, fh)
                         (_frame_count st) (_last_emotion_label st) in
          let level_fused := emotion_adjust emotion_label level_fused in
          let ema := ema_update (_ema_level st) level_fused in
          let level := py_max 0.0 (py_min 1.0 ema) in
          ({| _feature_histories := hists;
              _ema_level := Some ema;
              _frame_count := frame_count;
              _last_emotion_label := last_label;
              _last_face_bb := _last_face_bb st;
              _last_left_eb := _last_left_eb st;
              _last_right_eb := _last_right_eb st;
              _last_shape_points := _last_shape_points st |},
           {| level := level; label := level_to_label level;
              faces := n_faces |})
      | _, _ => (st, {| level := 0.0; label := "Low"; faces := n_faces |})
      end
  end.

(** [_accurate_from_dlib], lines 169-311. *)
Definition _accurate_from_dlib (fr : Frame) (g : Models * Estimator)
  : (Models * Estimator) * Summary :=
  let '(m, ok_models) := _ensure_models_loaded (load fr) g.1 in
  if negb ok_models then ((m, g.2), _heuristic_from_opencv fr)
  else
    let '(st, s) := accurate_body fr g.2 in ((m, st), s).

(** [compute_stress_from_frame], lines 314-318. *)
Definition compute_stress_from_frame (fr : Frame) (g : Models * Estimator)
  : (Models * Estimator) * Summary :=
  let '(m, ok) := _ensure_models_loaded (load fr) g.1 in
  if ok then _accurate_from_dlib fr (m, g.2)
  else ((m, g.2), _heuristic_from_opencv fr).

End StressEstimator.

(** ** Session Controller *)

(** The camera globals: [cap] is the open [cv2.VideoCapture], recorded by
    its device index. *)
Record Session := {
  cap : option Z;
  running : bool;
  cam_index : Z;
}.

(** Calls that reach outside the process. *)
Inductive effect :=
| VideoCapture (idx : Z)      (* [cv2.VideoCapture(idx)] *)
| ThreadStart                 (* [threading.Thread(target=camera_worker).start()] *)
| CapRelease (idx : Z).       (* [cap.release()] *)

(** The JSON bodies of the two routes, with their HTTP status. *)
Inductive Response :=
| StatusBody (code : Z) (status : string) (index : Z)
             (dlib_ready : bool) (dlib_error : option string)
| FailedToOpen (code : Z) (idx : Z)
| Stopped (code : Z).

(** [start_camera], lines 414-429.  [index] is the request's optional
    integer field, [opened] tells whether the device opens, [env] what
    loading the models would do. *)
Definition start_camera (index : option Z) (opened : bool)
    (env : load_outcome) (g : Session * Models)
  : (Session * Models) * list effect * Response :=
  let '(s, m) := g in
  let idx := default (cam_index s) index in
  if running s then
    let '(m, ready) := _ensure_models_loaded env m in
    ((s, m), [], StatusBody 200 "already_running" (cam_index s) ready (_dlib_error m))
  else if negb opened then
    ((s, m), [VideoCapture idx], FailedToOpen 400 idx)
  else
    let s := {| cap := Some idx; cam_index := idx; running := true |} in
    let '(m, ready) := _ensure_models_loaded env m in
    ((s, m), [VideoCapture idx; ThreadStart],
     StatusBody 200 "started" (cam_index s) ready (_dlib_error m)).

(** [stop_camera], lines 433-443. *)
Definition stop_camera (s : Session) : Session * list effect * Response :=
  let released :=
    match cap s with Some idx => [CapRelease idx] | None => [] end in
  ({| cap := None; running := false; cam_index := cam_index s |},
   released, Stopped 200).

(** ** Summary event stream *)

(** [a == b] on two summary dictionaries: the three values compared with
    [==] (floats by IEEE equality). *)
Definition summary_eqb (a b : Summary) : bool :=
  (level a =? level b)%float && String.eqb (label a) (label b)
  && (faces a =? faces b)%Z.

(** [s != last], where [last] starts as [None]. *)
Definition summary_ne (s : Summary) (last : option Summary) : bool :=
  match last with
  | None => true
  | Some l => negb (summary_eqb s l)
  end.

(** One turn of the loop of [gen] in [stream_sse] (lines 455-460) on the
    polled value [s] of [latest_summary]: the new [last] and the summary
    whose JSON is yielded as ["data: ...\n\n"], if any. *)
Definition gen_step (last : option Summary) (s : Summary)
  : option Summary * option Summary :=
  if summary_ne s last then (Some s, Some s) else (last, None).

(** The summaries yielded over a sequence of polls, in order. *)
Fixpoint gen (polls : list Summary) (last : option Summary) : list Summary :=
  match polls with
  | [] => []
  | s :: rest =>
      let '(last', out) := gen_step last s in
      match out with
      | Some payload => payload :: gen rest last'
      | None => gen rest last'
      end
  end.

(** ** Stand-ins used to run the model on concrete frames *)

(** A rational stand-in for the C library's [tanh]. *)
Definition sample_tanh (x : float) : float := (x / (1.0 + abs x))%float.

(** A stand-in for [hypot]: the Euclidean norm by [sqrt]. *)
Definition sample_hypot (x y : float) : float := sqrt (x * x + y * y)%float.

(** A stand-in for [exp] on the non-positive arguments of the heuristic
    path. *)
Definition sample_exp (x : float) : float := (1.0 / (1.0 + abs x))%float.

(** ** Predicates used in the statements *)

(** [0 <= x <= 1] on floats. *)
Definition in_unit_interval (x : float) : Prop :=
  (0 <=? x)%float = true /\ (x <=? 1)%float = true.

(** No two neighbours of the list are equal as summaries. *)
Definition no_repeat (out : list Summary) : Prop :=
  forall i a b, out !! i = Some a -> out !! S i = Some b ->
                summary_eqb b a = false.

(** The value of [last] in [gen] once [out] has been yielded, starting
    from [init]: the last yielded summary, if any. *)
Definition last_emitted (out : list Summary) (init : option Summary)
  : option Summary :=
  match last out with
  | Some s => Some s
  | None => init
  end.

(** Models already loaded at import and first use. *)
Definition loaded_models : Models := {|
  _dlib_ready := true; _dlib_error := None;
  _detector := true; _predictor := true; _emotion_classifier := true;
|}.

(** ** Concrete inputs for running the model *)

(** A 640x480 frame on which no provider finds a face. *)
Definition frame_no_face : Frame := {|
  load := LoadOk;
  gray_rows := 480; gray_cols := 640;
  detections := [];
  shape_np := [];
  emotion_argmax := None;
  haar_faces := [];
  haar_eyes := [];
  edges_mean := 0.0;
|}.

(** Estimator globals after some frames: a smoothed level of 0.4. *)
Definition estimator_smoothed : Estimator := {|
  _feature_histories := {[ "eyebrow" := [0.1; 0.2; 0.3; 0.4]%float ]};
  _ema_level := Some 0.4%float;
  _frame_count := 7;
  _last_emotion_label := "neutral";
  _last_face_bb := Some (100, 80, 200, 200)%Z;
  _last_left_eb := None;
  _last_right_eb := None;
  _last_shape_points := None;
|}.

(** A 68-point landmark set laid out on a grid, and a frame with one
    detected face carrying it, classified as "sad" (index 4). *)
Definition grid_shape : list point :=
  map (fun i => (100 + 11 * Z.of_nat (i mod 9), 80 + 13 * Z.of_nat (i / 9))%Z)
      (seq 0 68).

Definition frame_one_face : Frame := {|
  load := LoadOk;
  gray_rows := 480; gray_cols := 640;
  detections := [(100, 80, 200, 200)%Z];
  shape_np := grid_shape;
  emotion_argmax := Some 4;
  haar_faces := [(100, 80, 200, 200)%Z];
  haar_eyes := [(60, 50, 30, 20)%Z; (20, 52, 30, 20)%Z];
  edges_mean := 40.0;
|}.

(** A session with the camera of index 0 open and the worker running. *)
Definition session_running : Session :=
  {| cap := Some 0%Z; running := true; cam_index := 0 |}.

(** ** Requests, worker iterations and the video stream *)

(** The camera globals as the module initialises them (lines 37-39). *)
Definition initial_session : Session :=
  {| cap := None; running := false; cam_index := 0 |}.

(** [latest_summary] as the module initialises it (line 42). *)
Definition initial_summary : Summary :=
  {| level := 0.0; label := "Low"; faces := 0 |}.

(** A request to one of the two session routes, with what the
    environment does while it is served. *)
Inductive request :=
| Start (index : option Z) (opened : bool) (env : load_outcome)
| Stop.

(** One request served under [cam_lock]. *)
Definition handle (r : request) (g : Session * Models)
  : (Session * Models) * list effect * Response :=
  match r with
  | Start index opened env => start_camera index opened env g
  | Stop =>
      let '(s, released, resp) := stop_camera g.1 in ((s, g.2), released, resp)
  end.

(** A sequence of requests served one after the other: the final globals
    and the outside calls made, in order. *)
Fixpoint serve (rs : list request) (g : Session * Models)
  : (Session * Models) * list effect :=
  match rs with
  | [] => (g, [])
  | r :: rest =>
      let '(g', made, _) := handle r g in
      let '(g'', later) := serve rest g' in
      (g'', made ++ later)
  end.

Definition is_thread_start (e : effect) : bool :=
  match e with ThreadStart => true | _ => false end.

Definition is_release (e : effect) : bool :=
  match e with CapRelease _ => true | _ => false end.

(** The globals one worker iteration reads and writes. *)
Record World := {
  session : Session;
  models : Models;
  estimator : Estimator;
  latest_summary : Summary;
  (** [latest_frame]: the frame the annotated display was copied from *)
  latest_frame : option Frame;
}.

Definition initial_world (m : Models) : World := {|
  session := initial_session;
  models := m;
  estimator := initial_estimator;
  latest_summary := initial_summary;
  latest_frame := None;
|}.

Section CaptureWorker.

Variable libm_tanh : float -> float.
Variable libm_hypot : float -> float -> float.
Variable libm_exp : float -> float.

(** One turn of the loop of [camera_worker] (lines 388-410), entered with
    [running] set.  [read] is the frame [cap.read()] delivers (flipped and
    resized), [None] when the read fails.  Drawing the overlays changes
    only the display copy. *)
Definition camera_worker_step (read : option Frame) (w : World) : World :=
  match cap (session w) with
  | None => w
  | Some _ =>
      match read with
      | None => w
      | Some fr =>
          let '((m, st), s) :=
            compute_stress_from_frame libm_tanh libm_hypot libm_exp fr
                                      (models w, estimator w) in
          {| session := session w; models := m; estimator := st;
             latest_summary := s; latest_frame := Some fr |}
      end
  end.

(** The worker loop over a sequence of reads, for as long as [running]
    stays set. *)
Definition camera_worker (reads : list (option Frame)) (w : World) : World :=
  if running (session w)
  then fold_left (fun w read => camera_worker_step read w) reads w
  else w.

(** The estimator over a sequence of frames. *)
Definition process_frames (frames : list Frame) (g : Models * Estimator)
  : Models * Estimator :=
  fold_left
    (fun g fr => (compute_stress_from_frame libm_tanh libm_hypot libm_exp fr g).1)
    frames g.

End CaptureWorker.

(** What one turn of the loop of [gen] in [video_stream] (lines 468-481)
    finds: no frame published yet, a frame [cv2.imencode] fails on, or the
    JPEG bytes of the published frame. *)
Inductive video_poll :=
| NoFrame
| EncodeFails
| Encoded (jpg : list Byte.byte).

Definition bytes_of (s : string) : list Byte.byte := String.list_byte_of_string s.

Definition CR : string := String (Ascii.ascii_of_nat 13) EmptyString.
Definition LF : string := String (Ascii.ascii_of_nat 10) EmptyString.
Definition CRLF : list Byte.byte := bytes_of CR ++ bytes_of LF.

(** [boundary = b'--frame'] and the part yielded for one JPEG (lines
    467, 479-480). *)
Definition boundary : list Byte.byte := bytes_of "--frame".

Definition video_part (jpg : list Byte.byte) : list Byte.byte :=
  boundary ++ CRLF ++ bytes_of "Content-Type: image/jpeg" ++ CRLF ++ CRLF
  ++ jpg ++ CRLF.

(** The parts yielded over a sequence of polls. *)
Fixpoint video_gen (polls : list video_poll) : list (list Byte.byte) :=
  match polls with
  | [] => []
  | NoFrame :: rest => video_gen rest
  | EncodeFails :: rest => video_gen rest
  | Encoded jpg :: rest => video_part jpg :: video_gen rest
  end.

(** The four feature keys of the accurate pipeline. *)
Definition feature_keys : list string := ["eyebrow"; "eyes"; "mouth"; "chin"].

(** Every stored history is within the bound. *)
Definition histories_bounded (hists : gmap string (list float)) : Prop :=
  forall key history, hists !! key = Some history ->
                      length history <= _HISTORY_MAX_PER_FEATURE.

(** [running] is set exactly while a capture device is held. *)
Definition session_consistent (s : Session) : Prop :=
  running s = true <-> is_Some (cap s).

(** A summary whose label is the threshold label of its level, the level
    being within [0, 1]. *)
Definition summary_wf (s : Summary) : Prop :=
  in_unit_interval (level s) /\ label s = level_to_label (level s).

(** The dictionary after one more sample is stored under a key (lines
    147-151 of [_normalize_points]). *)
Definition store_sample (value : float) (key : string)
    (hists : gmap string (list float)) : gmap string (list float) :=
  <[key := push_history value key hists]> hists.

(** The estimator globals once the detection cache has been refreshed
    (lines 191-196). *)
Definition cache_detection (rect : bbox) (shape : list point)
    (st : Estimator) : Estimator := {|
  _feature_histories := _feature_histories st;
  _ema_level := _ema_level st;
  _frame_count := _frame_count st;
  _last_emotion_label := _last_emotion_label st;
  _last_face_bb := Some rect;
  _last_left_eb := Some (py_slice (FACIAL_LANDMARKS_IDXS "left_eyebrow") shape);
  _last_right_eb := Some (py_slice (FACIAL_LANDMARKS_IDXS "right_eyebrow") shape);
  _last_shape_points := Some shape;
|}.

(** Models that failed to import: [_dlib_ready] is false. *)
Definition missing_models : Models := {|
  _dlib_ready := false; _dlib_error := Some "No module named 'dlib'";
  _detector := false; _predictor := false; _emotion_classifier := false;
|}.

(** A frame whose detected face comes with a 5-point landmark set (the
    small dlib predictor), so the eyebrow slices are empty. *)
Definition frame_five_landmarks : Frame := {|
  load := LoadOk;
  gray_rows := 480; gray_cols := 640;
  detections := [(100, 80, 200, 200)%Z; (400, 90, 120, 120)%Z];
  shape_np := [(150, 140); (170, 140); (230, 140); (250, 140); (200, 200)]%Z;
  emotion_argmax := Some 4;
  haar_faces := [];
  haar_eyes := [];
  edges_mean := 0.0;
|}.

(** How many of the outside calls satisfy [p]. *)
Definition count_effects (p : effect -> bool) (made : list effect) : nat :=
  length (List.filter p made).

(** The JPEGs among the polls of the video stream, in order. *)
Fixpoint encoded_jpgs (polls : list video_poll) : list (list Byte.byte) :=
  match polls with
  | [] => []
  | Encoded jpg :: rest => jpg :: encoded_jpgs rest
  | _ :: rest => encoded_jpgs rest
  end.

(** The frames among the reads of the worker, in order. *)
Definition frames_read (reads : list (option Frame)) : list Frame :=
  omap id reads.

(** A world in which the camera of index 0 is open and the worker runs. *)
Definition world_running : World := {|
  session := session_running;
  models := loaded_models;
  estimator := initial_estimator;
  latest_summary := initial_summary;
  latest_frame := None;
|}.

(** Lines 201-271 of [_accurate_from_dlib]: the four metrics of the first
    face, each clamped and normalized under its own key, and their
    weighted fusion.  [left_tip] and [right_tip] are [left_eb[-1]] and
    [right_eb[0]].  Returns the updated histories and [level_fused] as it
    stands before the emotion adjustment. *)
Definition fused_features (libm_tanh : float -> float)
    (libm_hypot : float -> float -> float) (fr : Frame) (rect : bbox)
    (left_tip right_tip : point) (hists : gmap string (list float))
  : gmap string (list float) * float :=
  let '(fx, fy, fw, fh) := rect in
  let shape_np := shape_np fr in
  let distq := _euclidean libm_hypot left_tip right_tip in
  let face_w := py_max 1.0 (float_of_Z fw) in
  let face_h := py_max 1.0 (float_of_Z fh) in
  let eb_norm := (distq / face_w)%float in
  let eb_metric := py_max 0.0 (py_min 1.0 (1.0 - eb_norm)%float) in
  let '(hists, (l_eb, _)) :=
    _normalize_points libm_tanh eb_metric "eyebrow" hists in
  let left_eye := py_slice (FACIAL_LANDMARKS_IDXS "left_eye") shape_np in
  let right_eye := py_slice (FACIAL_LANDMARKS_IDXS "right_eye") shape_np in
  let ear_l := _ear libm_hypot left_eye in
  let ear_r := _ear libm_hypot right_eye in
  let eye_metric :=
    py_max 0.0 (py_min 1.0 (1.0 - py_min ear_l ear_r)%float) in
  let '(hists, (l_eye, _)) :=
    _normalize_points libm_tanh eye_metric "eyes" hists in
  let mouth := py_slice (FACIAL_LANDMARKS_IDXS "mouth") shape_np in
  let mar := _mar libm_hypot mouth in
  let mouth_metric := py_max 0.0 (py_min 1.0 mar) in
  let '(hists, (l_mouth, _)) :=
    _normalize_points libm_tanh mouth_metric "mouth" hists in
  let chin_dist :=
    match shape_np !! 8%nat, shape_np !! 33%nat with
    | Some chin_pt, Some nose_tip =>
        (_euclidean libm_hypot nose_tip chin_pt / face_h)%float
    | _, _ => 0.3%float
    end in
  let chin_metric := py_max 0.0 (py_min 1.0 chin_dist) in
  let '(hists, (l_chin, _)) :=
    _normalize_points libm_tanh chin_metric "chin" hists in
  (hists, fuse l_eb l_eye l_mouth l_chin).

(** No two neighbours of the list are the same summary. *)
Definition no_identical_neighbours (out : list Summary) : Prop :=
  forall i a b, out !! i = Some a -> out !! S i = Some b -> a <> b.

(** The summaries polled in the example of the stream. *)
Definition polled_summaries : list Summary :=
  [ {| level := 0.0; label := "Low"; faces := 0 |};
    {| level := 0.0; label := "Low"; faces := 0 |};
    {| level := 0.5; label := "Moderate"; faces := 1 |};
    {| level := 0.5; label := "Moderate"; faces := 1 |};
    {| level := 0.0; label := "Low"; faces := 0 |} ].

(** * Properties *)

(** ** Facts on binary64 comparisons *)

Section SpecFloatOrder.

Lemma SFcompare_antisym (x y : spec_float) :
  SFcompare y x = option_map CompOpp (SFcompare x y).
Proof.
  destruct x as [sx|sx| |sx mx ex], y as [sy|sy| |sy my ey]; simpl;
    try reflexivity;
    try (destruct sx; reflexivity);
    try (destruct sy; reflexivity);
    try (destruct sx, sy; reflexivity).
  destruct sx, sy; simpl; try reflexivity;
    rewrite (Z.compare_antisym ex ey);
    destruct (Z.compare ex ey) eqn:E; simpl; try reflexivity;
    fold (Pos.compare my mx); fold (Pos.compare mx my);
    rewrite (Pos.compare_antisym mx my);
    destruct (Pos.compare mx my); reflexivity.
Qed.

Lemma ltb_leb (x y : float) : (x <? y)%float = true -> (x <=? y)%float = true.
Proof.
  rewrite FloatAxioms.ltb_spec, FloatAxioms.leb_spec. unfold SFltb, SFleb.
  destruct (SFcompare _ _) as [[]|]; congruence.
Qed.

Lemma ltb_not_leb (x y : float) :
  (x <? y)%float = true -> (y <=? x)%float = false.
Proof.
  rewrite FloatAxioms.ltb_spec, FloatAxioms.leb_spec. unfold SFltb, SFleb.
  rewrite (SFcompare_antisym (Prim2SF x) (Prim2SF y)).
  destruct (SFcompare _ _) as [[]|]; simpl; congruence.
Qed.

Lemma leb_not_ltb (x y : float) :
  (x <=? y)%float = true -> (y <? x)%float = false.
Proof.
  rewrite FloatAxioms.ltb_spec, FloatAxioms.leb_spec. unfold SFltb, SFleb.
  rewrite (SFcompare_antisym (Prim2SF x) (Prim2SF y)).
  destruct (SFcompare _ _) as [[]|]; simpl; congruence.
Qed.

Lemma ltb_asym (x y : float) :
  (x <? y)%float = true -> (y <? x)%float = false.
Proof. intros H. apply leb_not_ltb, ltb_leb, H. Qed.

Lemma SFcompare_None (x y : spec_float) :
  SFcompare x y = None -> x = S754_nan \/ y = S754_nan.
Proof.
  destruct x as [sx|sx| |sx mx ex], y as [sy|sy| |sy my ey]; simpl;
    intros H; try discriminate H; auto.
Qed.

(** Two comparable floats are totally ordered: when [a <= x] holds, [x]
    is not NaN, so a failed [b <= x] against a non-NaN [b] means
    [x < b]. *)
Lemma leb_false_ltb (a b x : float) :
  (a <=? x)%float = true -> is_nan b = false ->
  (b <=? x)%float = false -> (x <? b)%float = true.
Proof.
  unfold is_nan. rewrite !FloatAxioms.leb_spec, FloatAxioms.ltb_spec, FloatAxioms.eqb_spec.
  unfold SFleb, SFltb, SFeqb. intros Hax Hb Hbx.
  rewrite (SFcompare_antisym (Prim2SF b) (Prim2SF x)).
  destruct (SFcompare (Prim2SF b) (Prim2SF x)) as [[]|] eqn:E;
    simpl; try congruence.
  exfalso. destruct (SFcompare_None _ _ E) as [Hn|Hn]; rewrite Hn in *.
  - simpl in Hb. discriminate.
  - destruct (Prim2SF a); simpl in Hax; discriminate.
Qed.

End SpecFloatOrder.

(** [C2] The label is a threshold function of the level: High exactly when
    [level >= 0.75], Moderate exactly when [0.35 <= level < 0.75], Low in
    every other case; at the boundaries, 0.75 is High and 0.35 is
    Moderate. *)
Theorem level_to_label_thresholds (level : float) :
  (level_to_label level = "High" <-> geb level 0.75 = true) /\
  (level_to_label level = "Moderate" <->
     geb level 0.35 = true /\ (level <? 0.75)%float = true) /\
  (level_to_label level = "Low" <->
     ~ geb level 0.75 = true /\
     ~ (geb level 0.35 = true /\ (level <? 0.75)%float = true)) /\
  level_to_label 0.75 = "High" /\
  level_to_label 0.35 = "Moderate".
Proof.
  unfold level_to_label, geb.
  split; [ | split; [ | split; [ | split; reflexivity ] ] ].
  - destruct (0.75 <=? level)%float; [tauto | ].
    destruct (0.35 <=? level)%float; split; discriminate.
  - destruct (0.75 <=? level)%float eqn:E75.
    + split; [discriminate | ]. intros [_ Hlt].
      rewrite (ltb_not_leb _ _ Hlt) in E75. discriminate.
    + destruct (0.35 <=? level)%float eqn:E35.
      * split; [ | reflexivity ]. intros _. split; [reflexivity | ].
        apply (leb_false_ltb 0.35 0.75 level E35); [reflexivity | exact E75].
      * split; [discriminate | ]. intros [H _]. discriminate H.
  - destruct (0.75 <=? level)%float eqn:E75.
    + split; [discriminate | ]. intros [H _]. exfalso. apply H. reflexivity.
    + destruct (0.35 <=? level)%float eqn:E35.
      * split; [discriminate | ]. intros [_ H]. exfalso. apply H.
        split; [reflexivity | ].
        apply (leb_false_ltb 0.35 0.75 level E35); [reflexivity | exact E75].
      * split; [ | reflexivity ]. intros _.
        split; [discriminate | ]. intros [H _]. discriminate H.
Qed.


(** ** The clamp [max(0.0, min(1.0, x))] *)

Lemma ltb_irrefl (x : float) : (x <? x)%float = false.
Proof.
  destruct (x <? x)%float eqn:E; [ | reflexivity ].
  rewrite (ltb_asym _ _ E) in E. discriminate.
Qed.

Lemma leb_not_nan (a x : float) : (a <=? x)%float = true -> is_nan x = false.
Proof.
  unfold is_nan. rewrite FloatAxioms.leb_spec, FloatAxioms.eqb_spec.
  unfold SFleb, SFeqb. intros H.
  destruct (Prim2SF x) as [s|s| |s m e] eqn:Ex; simpl.
  - reflexivity.
  - destruct s; reflexivity.
  - destruct (Prim2SF a); simpl in H; discriminate.
  - destruct s; rewrite Z.compare_refl;
      fold (Pos.compare m m); rewrite Pos.compare_refl; reflexivity.
Qed.

Lemma clamp01_range (x : float) : in_unit_interval (py_max 0.0 (py_min 1.0 x)).
Proof.
  unfold in_unit_interval, py_max, py_min.
  destruct (x <? 1.0)%float eqn:E1.
  - destruct (0.0 <? x)%float eqn:E0.
    + split; apply ltb_leb; assumption.
    + split; reflexivity.
  - split; reflexivity.
Qed.

Lemma clamp01_not_nan (x : float) : is_nan (py_max 0.0 (py_min 1.0 x)) = false.
Proof. apply (leb_not_nan 0.0). apply clamp01_range. Qed.

(** ** Feature Normalizer *)

Lemma py_last_length {A} (n : nat) (l : list A) :
  length (py_last n l) = min n (length l).
Proof. unfold py_last. rewrite length_drop. lia. Qed.

Lemma py_last_short {A} (n : nat) (l : list A) :
  length l <= n -> py_last n l = l.
Proof.
  intros H. unfold py_last. replace (length l - n) with 0 by lia. reflexivity.
Qed.

(** Truncating early does not change what a later truncation keeps. *)
Lemma py_last_app {A} (n : nat) (a b : list A) :
  py_last n (py_last n a ++ b) = py_last n (a ++ b).
Proof.
  unfold py_last. rewrite !length_app, length_drop.
  set (m := length a - n).
  replace (length a + length b - n) with (m + (length a - m + length b - n)) by lia.
  rewrite <- drop_drop. rewrite (drop_app_le a b m) by lia. reflexivity.
Qed.

Lemma push_history_last (value : float) (key : string)
    (hists : gmap string (list float)) :
  push_history value key hists =
  py_last _HISTORY_MAX_PER_FEATURE (default [] (hists !! key) ++ [value]).
Proof.
  unfold push_history.
  destruct (Nat.ltb_spec _HISTORY_MAX_PER_FEATURE
              (length (default [] (hists !! key) ++ [value]))) as [H|H].
  - reflexivity.
  - symmetry. apply py_last_short. exact H.
Qed.

Lemma normalize_points_fst (libm_tanh : float -> float) (value : float)
    (key : string) (hists : gmap string (list float)) :
  (_normalize_points libm_tanh value key hists).1 =
  <[key := push_history value key hists]> hists.
Proof.
  unfold _normalize_points.
  destruct (_ || _); [reflexivity | ].
  destruct (is_nan _); reflexivity.
Qed.

Lemma np_maximum_same (c : float) : np_maximum c c = c.
Proof. unfold np_maximum. destruct (is_nan c); [ | destruct (c <? c)%float ]; reflexivity. Qed.

Lemma np_minimum_same (c : float) : np_minimum c c = c.
Proof. unfold np_minimum. destruct (is_nan c); [ | destruct (c <? c)%float ]; reflexivity. Qed.

Lemma np_max_replicate (c : float) (n : nat) : np_max (replicate (S n) c) = c.
Proof.
  simpl. induction n as [|n IH]; simpl; [reflexivity | ].
  rewrite np_maximum_same. exact IH.
Qed.

Lemma np_min_replicate (c : float) (n : nat) : np_min (replicate (S n) c) = c.
Proof.
  simpl. induction n as [|n IH]; simpl; [reflexivity | ].
  rewrite np_minimum_same. exact IH.
Qed.

(** [C5] When the history, after the new value is appended, has fewer than
    5 samples, or its maximum equals its minimum -- as it does when the
    history consists of copies of one (non-NaN) value -- the normalizer
    returns exactly (0.5, "initializing"). *)
Theorem normalize_points_initializing (libm_tanh : float -> float)
    (value : float) (key : string) (hists : gmap string (list float)) :
  let history := push_history value key hists in
  (length history < 5 \/
   (np_max history =? np_min history)%float = true \/
   (exists c n, is_nan c = false /\ history = replicate (S n) c)) ->
  (_normalize_points libm_tanh value key hists).2 = (0.5%float, "initializing").
Proof.
  intros history H. unfold _normalize_points. fold history.
  assert (Hc : (length history <? 5)%nat || (np_max history =? np_min history)%float = true).
  { destruct H as [H | [H | (c & n & Hc & Hh)]].
    - apply orb_true_iff. left. apply Nat.ltb_lt. exact H.
    - apply orb_true_iff. right. exact H.
    - apply orb_true_iff. right. rewrite Hh, np_max_replicate, np_min_replicate.
      unfold is_nan in Hc. apply negb_false_iff in Hc. exact Hc. }
  rewrite Hc. reflexivity.
Qed.

(** The stored history after a run of calls, from a dictionary whose
    history under the key is within the bound. *)
Lemma normalize_all_lookup (libm_tanh : float -> float)
    (calls : list (string * float)) (key : string) :
  forall hists : gmap string (list float),
    length (default [] (hists !! key)) <= _HISTORY_MAX_PER_FEATURE ->
    default [] (normalize_all libm_tanh calls hists !! key) =
    py_last _HISTORY_MAX_PER_FEATURE
            (default [] (hists !! key) ++ inserted_under key calls).
Proof.
  unfold normalize_all, inserted_under.
  induction calls as [|[k v] calls IH]; intros hists Hlen; simpl.
  - rewrite app_nil_r. symmetry. apply py_last_short. exact Hlen.
  - rewrite filter_cons. simpl. destruct (decide (k = key)) as [->|Hne].
    + rewrite IH; rewrite normalize_points_fst; simpl; rewrite lookup_insert_eq; simpl;
        rewrite push_history_last.
      * rewrite py_last_app, <- app_assoc. reflexivity.
      * rewrite py_last_length. lia.
    + rewrite IH; rewrite normalize_points_fst; simpl;
        rewrite lookup_insert_ne by exact Hne; [reflexivity | exact Hlen].
Qed.

(** [C6] After any sequence of normalizer calls from the empty dictionary,
    the history stored under a key is the last (at most 300) values
    inserted under that key, in insertion order: its length is
    [min 300 n] for [n] insertions, so 300 after 1000 of them, and the
    oldest values are the ones dropped. *)
Theorem history_bounded_fifo (libm_tanh : float -> float)
    (calls : list (string * float)) (key : string) :
  let stored := default [] (normalize_all libm_tanh calls ∅ !! key) in
  let inserted := inserted_under key calls in
  stored = drop (length inserted - 300) inserted /\
  length stored <= 300 /\
  length stored = min 300 (length inserted).
Proof.
  intros stored inserted.
  assert (E : stored = py_last 300 inserted).
  { unfold stored. rewrite normalize_all_lookup; rewrite lookup_empty; simpl; [reflexivity | lia]. }
  split; [exact E | ].
  rewrite E, py_last_length. lia.
Qed.

(** [C10] A normalizer call with key [f] and value [v] stores under [f]
    the old history with [v] appended (cut to its last 300 entries),
    whatever the call returns, and leaves every other key as it was. *)
Theorem normalize_points_appends (libm_tanh : float -> float)
    (value : float) (key : string) (hists : gmap string (list float)) :
  let hists' := (_normalize_points libm_tanh value key hists).1 in
  let old := default [] (hists !! key) in
  hists' !! key = Some (py_last 300 (old ++ [value])) /\
  (length old < 300 -> hists' !! key = Some (old ++ [value])) /\
  (forall other, other <> key -> hists' !! other = hists !! other).
Proof.
  intros hists' old. unfold hists'. rewrite normalize_points_fst.
  split; [ | split ].
  - rewrite lookup_insert_eq, push_history_last. reflexivity.
  - intros H. rewrite lookup_insert_eq, push_history_last.
    rewrite py_last_short; [reflexivity | ].
    rewrite length_app. simpl. fold old. unfold _HISTORY_MAX_PER_FEATURE. lia.
  - intros other Hne. apply lookup_insert_ne. congruence.
Qed.

Lemma normalize_points_level_range (libm_tanh : float -> float)
    (value : float) (key : string) (hists : gmap string (list float)) :
  in_unit_interval (_normalize_points libm_tanh value key hists).2.1.
Proof.
  unfold _normalize_points.
  destruct (_ || _); [split; reflexivity | ].
  destruct (is_nan _); [split; reflexivity | ].
  apply clamp01_range.
Qed.



(** ** Stress Estimator *)

Lemma ensure_models_loaded_again (env : load_outcome) (m0 m : Models) :
  _ensure_models_loaded env m0 = (m, true) ->
  _ensure_models_loaded env m = (m, true).
Proof.
  unfold _ensure_models_loaded.
  destruct (_dlib_ready m0) eqn:Er; simpl; [ | discriminate ].
  destruct (_detector m0) eqn:Ed.
  - intros [= <-]. rewrite Er, Ed. reflexivity.
  - destruct env; [discriminate | ]. intros [= <-]. reflexivity.
Qed.

Lemma heuristic_level_range (libm_hypot : float -> float -> float)
    (libm_exp : float -> float) (fr : Frame) :
  in_unit_interval (level (_heuristic_from_opencv libm_hypot libm_exp fr)).
Proof.
  unfold _heuristic_from_opencv.
  destruct (haar_faces fr) as [|[[[x y] w] h] rest]; [split; reflexivity | ].
  apply clamp01_range.
Qed.

Lemma accurate_body_level_range (libm_tanh : float -> float)
    (libm_hypot : float -> float -> float) (fr : Frame) (st : Estimator) :
  in_unit_interval (level (accurate_body libm_tanh libm_hypot fr st).2).
Proof.
  unfold accurate_body.
  destruct (detections fr) as [|[[[fx fy] fw] fh] rest]; [split; reflexivity | ].
  destruct (last _); [ | split; reflexivity ].
  destruct (head _); [ | split; reflexivity ].
  cbv zeta.
  repeat match goal with
         | |- context [_normalize_points ?t ?v ?k ?h] =>
             destruct (_normalize_points t v k h) as [? [? ?]]
         end.
  destruct (emotion_gate _ _ _ _) as [[? ?] ?].
  apply clamp01_range.
Qed.

(** [C1] The level of the summary returned for a frame lies in [0, 1]:
    for [compute_stress_from_frame], and for each of the accurate
    pipeline (its early returns included) and the heuristic fallback. *)
Theorem summary_level_in_unit_interval (libm_tanh : float -> float)
    (libm_hypot : float -> float -> float) (libm_exp : float -> float)
    (fr : Frame) (g : Models * Estimator) :
  in_unit_interval
    (level (compute_stress_from_frame libm_tanh libm_hypot libm_exp fr g).2) /\
  in_unit_interval
    (level (_accurate_from_dlib libm_tanh libm_hypot libm_exp fr g).2) /\
  in_unit_interval (level (_heuristic_from_opencv libm_hypot libm_exp fr)).
Proof.
  assert (Hacc : forall g0,
    in_unit_interval
      (level (_accurate_from_dlib libm_tanh libm_hypot libm_exp fr g0).2)).
  { intros g0. unfold _accurate_from_dlib.
    destruct (_ensure_models_loaded _ _) as [m [|]]; simpl.
    - pose proof (accurate_body_level_range libm_tanh libm_hypot fr g0.2) as H.
      destruct (accurate_body _ _ _ _) as [st s]. exact H.
    - apply heuristic_level_range. }
  split; [ | split; [apply Hacc | apply heuristic_level_range] ].
  unfold compute_stress_from_frame.
  destruct (_ensure_models_loaded _ _) as [m [|]].
  - apply Hacc.
  - apply heuristic_level_range.
Qed.

(** [C3] On the accurate path (the models load), a frame with zero
    detections yields the summary {level: 0.0, label: Low, faces: 0} and
    leaves the estimator's globals, the smoothed level among them, as they
    were. *)
Theorem zero_detections_summary (libm_tanh : float -> float)
    (libm_hypot : float -> float -> float) (libm_exp : float -> float)
    (fr : Frame) (g : Models * Estimator) :
  (_ensure_models_loaded (load fr) g.1).2 = true ->
  detections fr = [] ->
  let r := compute_stress_from_frame libm_tanh libm_hypot libm_exp fr g in
  r.2 = {| level := 0.0; label := "Low"; faces := 0 |} /\
  _ema_level r.1.2 = _ema_level g.2 /\
  r.1.2 = g.2 /\
  _accurate_from_dlib libm_tanh libm_hypot libm_exp fr g = r.
Proof.
  intros Hok Hdet r. unfold r, compute_stress_from_frame.
  assert (Hacc : forall m0 m, _ensure_models_loaded (load fr) m0 = (m, true) ->
    _accurate_from_dlib libm_tanh libm_hypot libm_exp fr (m0, g.2) =
    ((m, g.2), {| level := 0.0; label := "Low"; faces := 0 |})).
  { intros m0 m E. unfold _accurate_from_dlib. simpl. rewrite E. simpl.
    unfold accurate_body. rewrite Hdet. reflexivity. }
  destruct (_ensure_models_loaded (load fr) g.1) as [m ok] eqn:E.
  simpl in Hok. subst ok.
  rewrite (Hacc m m (ensure_models_loaded_again _ _ _ E)).
  destruct g as [m0 st]. simpl in *.
  rewrite (Hacc m0 m E). auto.
Qed.

(** The emotion adjustment as a function: under the labels "scared" and
    "sad" a level becomes [max(level, 0.75)], so a level below 0.75
    becomes exactly 0.75 and a level at or above 0.75 is kept; under any
    other label the level is kept; in no case is the adjusted level lower
    than the given one. *)
Lemma emotion_override_only_raises (emotion_label : string)
    (level_fused : float) :
  let adjusted := emotion_adjust emotion_label level_fused in
  ((emotion_label = "scared" \/ emotion_label = "sad") ->
     adjusted = py_max level_fused 0.75 /\
     ((level_fused <? 0.75)%float = true -> adjusted = 0.75%float) /\
     (geb level_fused 0.75 = true -> adjusted = level_fused)) /\
  (~ (emotion_label = "scared" \/ emotion_label = "sad") ->
     adjusted = level_fused) /\
  (adjusted <? level_fused)%float = false.
Proof.
  intros adjusted. unfold adjusted, emotion_adjust, geb.
  split; [ | split ].
  - intros H.
    assert (E : String.eqb emotion_label "scared" || String.eqb emotion_label "sad" = true).
    { destruct H as [-> | ->]; reflexivity. }
    rewrite E. unfold py_max. split; [reflexivity | split ].
    + intros ->. reflexivity.
    + intros Hge. rewrite (leb_not_ltb _ _ Hge). reflexivity.
  - intros H.
    destruct (String.eqb_spec emotion_label "scared") as [E1|E1]; [tauto | ].
    destruct (String.eqb_spec emotion_label "sad") as [E2|E2]; [tauto | ].
    reflexivity.
  - destruct (_ || _); [ | apply ltb_irrefl ].
    unfold py_max. destruct (level_fused <? 0.75)%float eqn:E.
    + apply ltb_asym. exact E.
    + apply ltb_irrefl.
Qed.

(** ** Session Controller *)

(** [C8] Start on a running session answers "already_running" with the
    current index, leaves [cap], [running] and [cam_index] as they were,
    and makes no outside call: no capture device is opened and no worker
    thread is started. *)
Theorem start_while_running (index : option Z) (opened : bool)
    (env : load_outcome) (s : Session) (m : Models) :
  running s = true ->
  let r := start_camera index opened env (s, m) in
  let loaded := _ensure_models_loaded env m in
  r.1.1.1 = s /\
  r.1.2 = [] /\
  r.2 = StatusBody 200 "already_running" (cam_index s)
                   loaded.2 (_dlib_error loaded.1).
Proof.
  intros Hrun r loaded. unfold r, loaded, start_camera. rewrite Hrun.
  destruct (_ensure_models_loaded env m) as [m' ready]. simpl. auto.
Qed.

(** ** Summary event stream *)

Lemma gen_head (polls : list Summary) :
  forall (last : option Summary) (x : Summary),
    head (gen polls last) = Some x -> summary_ne x last = true.
Proof.
  induction polls as [|s polls IH]; intros last x; simpl; [discriminate | ].
  unfold gen_step. destruct (summary_ne s last) eqn:E; simpl.
  - intros [= <-]. exact E.
  - apply IH.
Qed.

Lemma no_repeat_cons (s : Summary) (out : list Summary) :
  (forall x, head out = Some x -> summary_eqb x s = false) ->
  no_repeat out -> no_repeat (s :: out).
Proof.
  intros Hhead Hout [|i] a b Ha Hb; simpl in *.
  - injection Ha as <-. apply Hhead. destruct out; simpl in *; congruence.
  - apply (Hout i a b Ha Hb).
Qed.

Lemma gen_no_repeat (polls : list Summary) :
  forall last : option Summary, no_repeat (gen polls last).
Proof.
  induction polls as [|s polls IH]; intros last; simpl.
  - intros i a b Ha. rewrite lookup_nil in Ha. discriminate.
  - unfold gen_step. destruct (summary_ne s last); simpl; [ | apply IH ].
    apply no_repeat_cons; [ | apply IH ].
    intros x Hx. apply gen_head in Hx. simpl in Hx.
    apply negb_true_iff. exact Hx.
Qed.

Lemma last_emitted_cons (s : Summary) (out : list Summary)
    (init : option Summary) :
  last_emitted (s :: out) init = last_emitted out (Some s).
Proof.
  unfold last_emitted. rewrite last_cons. destruct (last out); reflexivity.
Qed.

Lemma gen_snoc (polls : list Summary) (s : Summary) :
  forall init : option Summary,
    gen (polls ++ [s]) init =
    gen polls init ++
      (if summary_ne s (last_emitted (gen polls init) init) then [s] else []).
Proof.
  induction polls as [|p polls IH]; intros init; simpl.
  - unfold gen_step, last_emitted. simpl.
    destruct (summary_ne s init); reflexivity.
  - unfold gen_step. destruct (summary_ne p init); simpl.
    + rewrite IH, last_emitted_cons. reflexivity.
    + apply IH.
Qed.

(** Over any sequence of polled summaries, no two consecutive yields of
    the stream compare equal with [==], and the poll of a value [s] adds a
    yield exactly when [s != last] holds for the last yielded summary (the
    first poll always yields). *)
Lemma stream_no_repeat (polls : list Summary) :
  no_repeat (gen polls None) /\
  (forall s,
     gen (polls ++ [s]) None =
     gen polls None ++
       (if summary_ne s (last_emitted (gen polls None) None)
        then [s] else [])) /\
  (forall last s,
     (gen_step last s).2 = (if summary_ne s last then Some s else None)).
Proof.
  split; [apply gen_no_repeat | split ].
  - intros s. apply gen_snoc.
  - intros last s. unfold gen_step. destruct (summary_ne s last); reflexivity.
Qed.

(** ** The model on concrete inputs *)

Example ema_exactness : ema_update (Some 0.4%float) 1.0%float = 0.58%float.
Proof. reflexivity. Qed.

Example label_boundaries :
  map level_to_label [0.0; 0.34; 0.35; 0.5; 0.74; 0.75; 1.0; nan]%float =
  ["Low"; "Low"; "Moderate"; "Moderate"; "Moderate"; "High"; "High"; "Low"].
Proof. reflexivity. Qed.

Example one_face_first_frame :
  let r := compute_stress_from_frame sample_tanh sample_hypot sample_exp
             frame_one_face (loaded_models, initial_estimator) in
  r.2 = {| level := 0.75; label := "High"; faces := 1 |} /\
  _ema_level r.1.2 = Some 0.75%float /\
  _last_emotion_label r.1.2 = "sad" /\
  _feature_histories r.1.2 !! "eyes" = Some [0.0%float].
Proof. vm_compute. auto. Qed.

Example thousand_insertions :
  let calls := map (fun i => ("eyes", float_of_Z (Z.of_nat i))) (seq 0 1000) in
  let stored := default [] (normalize_all sample_tanh calls ∅ !! "eyes") in
  length stored = 300 /\ head stored = Some 700%float /\
  last stored = Some 999%float.
Proof. vm_compute. auto. Qed.

Example stream_skips_unchanged :
  let low := {| level := 0.0; label := "Low"; faces := 0 |} in
  let mid := {| level := 0.5; label := "Moderate"; faces := 1 |} in
  gen [low; low; mid; mid; low] None = [low; mid; low].
Proof. reflexivity. Qed.

Example stop_twice :
  let r := stop_camera session_running in
  r = ({| cap := None; running := false; cam_index := 0 |},
       [CapRelease 0], Stopped 200) /\
  stop_camera r.1.1 = (r.1.1, [], Stopped 200).
Proof. split; reflexivity. Qed.

(** ** Witnesses *)

Lemma normalize_points_initializing_witness :
  length (push_history 0.2 "eyebrow" ∅) < 5 /\
  (_normalize_points sample_tanh 0.2 "eyebrow" ∅).2
  = (0.5%float, "initializing").
Proof.
  assert (H : length (push_history 0.2 "eyebrow" ∅) < 5)
    by (vm_compute; lia).
  split; [exact H | ].
  apply (normalize_points_initializing sample_tanh 0.2 "eyebrow" ∅).
  left. exact H.
Defined.

Lemma zero_detections_summary_witness :
  (_ensure_models_loaded (load frame_no_face) loaded_models).2 = true /\
  detections frame_no_face = [] /\
  (compute_stress_from_frame sample_tanh sample_hypot sample_exp
     frame_no_face (loaded_models, estimator_smoothed)).2
  = {| level := 0.0; label := "Low"; faces := 0 |} /\
  _ema_level
    (compute_stress_from_frame sample_tanh sample_hypot sample_exp
       frame_no_face (loaded_models, estimator_smoothed)).1.2
  = Some 0.4%float.
Proof.
  split; [reflexivity | ]. split; [reflexivity | ].
  destruct (zero_detections_summary sample_tanh sample_hypot sample_exp
              frame_no_face (loaded_models, estimator_smoothed)
              eq_refl eq_refl) as (Hs & He & _).
  split; [exact Hs | exact He].
Defined.

Lemma start_while_running_witness :
  running session_running = true /\
  (start_camera (Some 1%Z) true LoadOk (session_running, loaded_models)).1.1.1
  = session_running /\
  (start_camera (Some 1%Z) true LoadOk (session_running, loaded_models)).1.2
  = [] /\
  (start_camera (Some 1%Z) true LoadOk (session_running, loaded_models)).2
  = StatusBody 200 "already_running" 0 true None.
Proof.
  split; [reflexivity | ].
  exact (start_while_running (Some 1%Z) true LoadOk session_running
           loaded_models eq_refl).
Defined.

(** * Further properties of the backend *)

(** ** Model loading *)

(** [X1] The answer of [_ensure_models_loaded] is settled by its first
    call: whatever it returned, and whatever the environment does later,
    every later call returns the same answer and changes nothing. *)
Theorem ensure_models_loaded_settled (env env' : load_outcome) (m : Models) :
  let r := _ensure_models_loaded env m in
  _ensure_models_loaded env' r.1 = r.
Proof.
  unfold _ensure_models_loaded.
  destruct (_dlib_ready m) eqn:Er; simpl.
  - destruct (_detector m) eqn:Ed; simpl.
    + rewrite Er, Ed. reflexivity.
    + destruct env; reflexivity.
  - rewrite Er. reflexivity.
Qed.

(** ** Landmark slices *)

Lemma py_slice_length {A} (b e : nat) (l : list A) :
  length (py_slice (b, e) l) = min (e - b) (length l - b).
Proof. unfold py_slice. simpl. rewrite length_take, length_drop. reflexivity. Qed.

Lemma last_is_Some {A} (l : list A) : 0 < length l -> is_Some (last l).
Proof.
  destruct l as [|x l] using rev_ind; simpl; [lia | ].
  intros _. rewrite last_snoc. eauto.
Qed.

Lemma head_is_Some {A} (l : list A) : 0 < length l -> is_Some (head l).
Proof. destruct l; simpl; [lia | eauto]. Qed.

Lemma last_None_short {A} (l : list A) : length l = 0 -> last l = None.
Proof. destruct l; simpl; [reflexivity | lia]. Qed.

(** ** The three ways through the accurate pipeline *)

(** One call of the normalizer inside the pipeline: name the metric,
    record that it is clamped, and replace the returned dictionary by the
    stored sample. *)
Ltac norm_step v :=
  match goal with
  | |- context [_normalize_points ?t ?x ?k ?hh] =>
      set (v := x);
      assert (in_unit_interval v) by apply clamp01_range;
      clearbody v;
      let E := fresh "E" in
      pose proof (normalize_points_fst t v k hh) as E;
      destruct (_normalize_points t v k hh) as [? [? ?]];
      simpl in E; subst
  end.

Lemma accurate_body_spec (libm_tanh : float -> float)
    (libm_hypot : float -> float -> float) (fr : Frame) (st : Estimator) :
  let r := accurate_body libm_tanh libm_hypot fr st in
  match detections fr with
  | [] => r = (st, {| level := 0.0; label := "Low"; faces := 0 |})
  | rect :: _ =>
      let st1 := cache_detection rect (shape_np fr) st in
      let n := Z.of_nat (length (detections fr)) in
      if (length (shape_np fr) <=? 22)%nat
      then r = (st1, {| level := 0.0; label := "Low"; faces := n |})
      else
        exists v1 v2 v3 v4 fused,
          in_unit_interval v1 /\ in_unit_interval v2 /\
          in_unit_interval v3 /\ in_unit_interval v4 /\
          let g := emotion_gate fr rect (_frame_count st)
                                (_last_emotion_label st) in
          let ema :=
            ema_update (_ema_level st) (emotion_adjust g.1.1 fused) in
          let lvl := py_max 0.0 (py_min 1.0 ema) in
          r = ({| _feature_histories :=
                    store_sample v4 "chin"
                      (store_sample v3 "mouth"
                         (store_sample v2 "eyes"
                            (store_sample v1 "eyebrow"
                               (_feature_histories st))));
                  _ema_level := Some ema;
                  _frame_count := g.1.2;
                  _last_emotion_label := g.2;
                  _last_face_bb := _last_face_bb st1;
                  _last_left_eb := _last_left_eb st1;
                  _last_right_eb := _last_right_eb st1;
                  _last_shape_points := _last_shape_points st1 |},
               {| level := lvl; label := level_to_label lvl; faces := n |})
  end.
Proof.
  intros r. unfold r, accurate_body.
  destruct (detections fr) as [|[[[fx fy] fw] fh] rest] eqn:Hdet; [reflexivity | ].
  cbv zeta.
  destruct (Nat.leb_spec (length (shape_np fr)) 22) as [Hlen|Hlen].
  - rewrite (last_None_short (py_slice (FACIAL_LANDMARKS_IDXS "left_eyebrow") (shape_np fr))).
    + reflexivity.
    + change (FACIAL_LANDMARKS_IDXS "left_eyebrow") with (22, 27).
      rewrite py_slice_length. lia.
  - destruct (last_is_Some (py_slice (FACIAL_LANDMARKS_IDXS "left_eyebrow") (shape_np fr)))
      as [lt ->].
    { change (FACIAL_LANDMARKS_IDXS "left_eyebrow") with (22, 27).
      rewrite py_slice_length. lia. }
    destruct (head_is_Some (py_slice (FACIAL_LANDMARKS_IDXS "right_eyebrow") (shape_np fr)))
      as [rt ->].
    { change (FACIAL_LANDMARKS_IDXS "right_eyebrow") with (17, 22).
      rewrite py_slice_length. lia. }
    cbn [_feature_histories _ema_level _frame_count _last_emotion_label
         _last_face_bb _last_left_eb _last_right_eb _last_shape_points].
    norm_step v1. norm_step v2. norm_step v3. norm_step v4.
    destruct (emotion_gate fr (fx, fy, fw, fh) (_frame_count st)
                           (_last_emotion_label st)) as [[lbl cnt] stored].
    exists v1, v2, v3, v4.
    match goal with
    | |- context [emotion_adjust lbl ?f] => exists f
    end.
    repeat (split; [assumption | ]).
    reflexivity.
Qed.

Lemma compute_stress_spec (libm_tanh : float -> float)
    (libm_hypot : float -> float -> float) (libm_exp : float -> float)
    (fr : Frame) (g : Models * Estimator) :
  let e := _ensure_models_loaded (load fr) g.1 in
  let a := accurate_body libm_tanh libm_hypot fr g.2 in
  compute_stress_from_frame libm_tanh libm_hypot libm_exp fr g =
  if e.2 then ((e.1, a.1), a.2)
  else ((e.1, g.2), _heuristic_from_opencv libm_hypot libm_exp fr).
Proof.
  unfold compute_stress_from_frame.
  destruct (_ensure_models_loaded (load fr) g.1) as [m [|]] eqn:E; simpl;
    [ | reflexivity ].
  unfold _accurate_from_dlib. simpl.
  rewrite (ensure_models_loaded_again _ _ _ E). simpl.
  destruct (accurate_body _ _ _ _). reflexivity.
Qed.

Lemma heuristic_label (libm_hypot : float -> float -> float)
    (libm_exp : float -> float) (fr : Frame) :
  let s := _heuristic_from_opencv libm_hypot libm_exp fr in
  label s = level_to_label (level s).
Proof.
  unfold _heuristic_from_opencv.
  destruct (haar_faces fr) as [|[[[x y] w] h] rest]; reflexivity.
Qed.

Lemma accurate_body_label (libm_tanh : float -> float)
    (libm_hypot : float -> float -> float) (fr : Frame) (st : Estimator) :
  let s := (accurate_body libm_tanh libm_hypot fr st).2 in
  label s = level_to_label (level s).
Proof.
  pose proof (accurate_body_spec libm_tanh libm_hypot fr st) as H.
  cbv zeta in H. cbv zeta.
  destruct (detections fr) as [|rect rest]; [rewrite H; reflexivity | ].
  destruct (_ <=? _)%nat; [rewrite H; reflexivity | ].
  destruct H as (v1 & v2 & v3 & v4 & fused & _ & _ & _ & _ & ->). reflexivity.
Qed.

(** [X2] On every path of the estimator -- the accurate pipeline, its
    two early returns and the heuristic fallback -- the label of the
    returned summary is [level_to_label] of its level. *)
Theorem summary_label_matches_level (libm_tanh : float -> float)
    (libm_hypot : float -> float -> float) (libm_exp : float -> float)
    (fr : Frame) (g : Models * Estimator) :
  let s := (compute_stress_from_frame libm_tanh libm_hypot libm_exp fr g).2 in
  label s = level_to_label (level s).
Proof.
  cbv zeta. rewrite compute_stress_spec.
  destruct (_ensure_models_loaded _ _).2; simpl.
  - apply accurate_body_label.
  - apply heuristic_label.
Qed.

Lemma accurate_body_faces (libm_tanh : float -> float)
    (libm_hypot : float -> float -> float) (fr : Frame) (st : Estimator) :
  faces (accurate_body libm_tanh libm_hypot fr st).2 =
  Z.of_nat (length (detections fr)).
Proof.
  pose proof (accurate_body_spec libm_tanh libm_hypot fr st) as H.
  cbv zeta in H.
  destruct (detections fr) as [|rect rest]; [rewrite H; reflexivity | ].
  destruct (_ <=? _)%nat; [rewrite H; reflexivity | ].
  destruct H as (v1 & v2 & v3 & v4 & fused & _ & _ & _ & _ & ->). reflexivity.
Qed.

(** [X3] The [faces] field counts every face found, not only the one that
    drives the metrics: with the models loaded it is the number of
    detections of the landmark detector (also on the early return for
    incomplete landmarks), otherwise the number of Haar faces. *)
Theorem summary_faces_count (libm_tanh : float -> float)
    (libm_hypot : float -> float -> float) (libm_exp : float -> float)
    (fr : Frame) (g : Models * Estimator) :
  faces (compute_stress_from_frame libm_tanh libm_hypot libm_exp fr g).2 =
  if (_ensure_models_loaded (load fr) g.1).2
  then Z.of_nat (length (detections fr))
  else Z.of_nat (length (haar_faces fr)).
Proof.
  rewrite compute_stress_spec.
  destruct (_ensure_models_loaded _ _).2; simpl.
  - apply accurate_body_faces.
  - unfold _heuristic_from_opencv.
    destruct (haar_faces fr) as [|[[[x y] w] h] rest]; reflexivity.
Qed.

(** [X4] When the models are unavailable the frame is handled by the
    heuristic alone: the summary is the one of [_heuristic_from_opencv]
    and the feature histories, the smoothed level, the frame counter, the
    emotion label and the detection cache are all left as they were. *)
Theorem fallback_leaves_estimator (libm_tanh : float -> float)
    (libm_hypot : float -> float -> float) (libm_exp : float -> float)
    (fr : Frame) (g : Models * Estimator) :
  (_ensure_models_loaded (load fr) g.1).2 = false ->
  let r := compute_stress_from_frame libm_tanh libm_hypot libm_exp fr g in
  r.2 = _heuristic_from_opencv libm_hypot libm_exp fr /\ r.1.2 = g.2.
Proof.
  intros H r. unfold r. rewrite compute_stress_spec, H. auto.
Qed.

(** ** Feature histories across frames *)

Lemma push_history_bounded (value : float) (key : string)
    (hists : gmap string (list float)) :
  length (push_history value key hists) <= _HISTORY_MAX_PER_FEATURE.
Proof. rewrite push_history_last, py_last_length. lia. Qed.

Lemma store_sample_bounded (value : float) (key : string)
    (hists : gmap string (list float)) :
  histories_bounded hists -> histories_bounded (store_sample value key hists).
Proof.
  intros H k h. unfold store_sample.
  destruct (decide (key = k)) as [->|Hne].
  - rewrite lookup_insert_eq. intros [= <-]. apply push_history_bounded.
  - rewrite lookup_insert_ne by exact Hne. apply H.
Qed.

Lemma accurate_body_bounded (libm_tanh : float -> float)
    (libm_hypot : float -> float -> float) (fr : Frame) (st : Estimator) :
  histories_bounded (_feature_histories st) ->
  histories_bounded
    (_feature_histories (accurate_body libm_tanh libm_hypot fr st).1).
Proof.
  intros Hb.
  pose proof (accurate_body_spec libm_tanh libm_hypot fr st) as H.
  cbv zeta in H.
  destruct (detections fr) as [|rect rest]; [rewrite H; exact Hb | ].
  destruct (_ <=? _)%nat; [rewrite H; exact Hb | ].
  destruct H as (v1 & v2 & v3 & v4 & fused & _ & _ & _ & _ & ->). simpl.
  repeat apply store_sample_bounded. exact Hb.
Qed.

Lemma compute_stress_bounded (libm_tanh : float -> float)
    (libm_hypot : float -> float -> float) (libm_exp : float -> float)
    (fr : Frame) (g : Models * Estimator) :
  histories_bounded (_feature_histories g.2) ->
  histories_bounded
    (_feature_histories
       (compute_stress_from_frame libm_tanh libm_hypot libm_exp fr g).1.2).
Proof.
  intros Hb. rewrite compute_stress_spec.
  destruct (_ensure_models_loaded _ _).2; simpl; [ | exact Hb ].
  apply accurate_body_bounded. exact Hb.
Qed.

(** [X5] Over any sequence of frames processed from the initial globals,
    with any models and whatever the providers report, every stored
    feature history has at most 300 entries. *)
Theorem histories_stay_bounded (libm_tanh : float -> float)
    (libm_hypot : float -> float -> float) (libm_exp : float -> float)
    (frames : list Frame) (m : Models) :
  histories_bounded
    (_feature_histories
       (process_frames libm_tanh libm_hypot libm_exp frames
                       (m, initial_estimator)).2).
Proof.
  assert (G : forall g, histories_bounded (_feature_histories g.2) ->
    histories_bounded
      (_feature_histories
         (process_frames libm_tanh libm_hypot libm_exp frames g).2)).
  { unfold process_frames. induction frames as [|fr frames IH]; intros g Hb; simpl.
    - exact Hb.
    - apply IH. apply compute_stress_bounded. exact Hb. }
  apply G. simpl. intros k h Hk. rewrite lookup_empty in Hk. discriminate.
Qed.

Lemma store_sample_other (value : float) (key other : string)
    (hists : gmap string (list float)) :
  other <> key -> store_sample value key hists !! other = hists !! other.
Proof. intros H. unfold store_sample. apply lookup_insert_ne. congruence. Qed.

(** [X6] A frame only ever touches the histories of the four feature
    keys: the history stored under any other key is the same after
    [compute_stress_from_frame] as before. *)
Theorem other_histories_untouched (libm_tanh : float -> float)
    (libm_hypot : float -> float -> float) (libm_exp : float -> float)
    (fr : Frame) (g : Models * Estimator) (key : string) :
  key ∉ feature_keys ->
  _feature_histories
    (compute_stress_from_frame libm_tanh libm_hypot libm_exp fr g).1.2 !! key
  = _feature_histories g.2 !! key.
Proof.
  intros Hk. rewrite compute_stress_spec.
  destruct (_ensure_models_loaded _ _).2; simpl; [ | reflexivity ].
  pose proof (accurate_body_spec libm_tanh libm_hypot fr g.2) as H.
  cbv zeta in H.
  destruct (detections fr) as [|rect rest]; [rewrite H; reflexivity | ].
  destruct (_ <=? _)%nat; [rewrite H; reflexivity | ].
  destruct H as (v1 & v2 & v3 & v4 & fused & _ & _ & _ & _ & ->). simpl.
  unfold feature_keys in Hk.
  rewrite !store_sample_other; [reflexivity | | | | ];
    intros ->; apply Hk; set_solver.
Qed.

Lemma store_sample_same (value : float) (key : string)
    (hists : gmap string (list float)) :
  store_sample value key hists !! key =
  Some (py_last _HISTORY_MAX_PER_FEATURE
                (default [] (hists !! key) ++ [value])).
Proof.
  unfold store_sample. rewrite lookup_insert_eq, push_history_last. reflexivity.
Qed.

(** [X7] With the models loaded, a detection and landmarks that reach the
    eyebrows (more than 22 points), the frame runs the whole pipeline:
    each of the four feature keys gets exactly one new sample, a value
    within [0, 1], appended to its history (cut to the last 300); the
    smoothed level is set; and the published level is that smoothed level
    clamped to [0, 1]. *)
Theorem complete_landmarks_update (libm_tanh : float -> float)
    (libm_hypot : float -> float -> float) (libm_exp : float -> float)
    (fr : Frame) (g : Models * Estimator) :
  (_ensure_models_loaded (load fr) g.1).2 = true ->
  0 < length (detections fr) ->
  22 < length (shape_np fr) ->
  let r := compute_stress_from_frame libm_tanh libm_hypot libm_exp fr g in
  (forall key, key ∈ feature_keys ->
     exists v, in_unit_interval v /\
       _feature_histories r.1.2 !! key =
       Some (py_last 300 (default [] (_feature_histories g.2 !! key) ++ [v]))) /\
  (exists ema, _ema_level r.1.2 = Some ema /\
               level r.2 = py_max 0.0 (py_min 1.0 ema)).
Proof.
  intros Hok Hdet Hlen r. unfold r. rewrite compute_stress_spec, Hok. simpl.
  pose proof (accurate_body_spec libm_tanh libm_hypot fr g.2) as H.
  cbv zeta in H.
  destruct (detections fr) as [|rect rest]; [simpl in Hdet; lia | ].
  destruct (Nat.leb_spec (length (shape_np fr)) 22) as [Hle|_]; [lia | ].
  destruct H as (v1 & v2 & v3 & v4 & fused & H1 & H2 & H3 & H4 & ->). simpl.
  split; [ | eexists; split; reflexivity ].
  intros key Hkey. unfold feature_keys in Hkey.
  repeat (apply elem_of_cons in Hkey as [-> | Hkey]).
  - exists v1. split; [exact H1 | ].
    rewrite !store_sample_other by discriminate. apply store_sample_same.
  - exists v2. split; [exact H2 | ].
    rewrite !store_sample_other by discriminate. rewrite store_sample_same.
    rewrite store_sample_other by discriminate. reflexivity.
  - exists v3. split; [exact H3 | ].
    rewrite !store_sample_other by discriminate. rewrite store_sample_same.
    rewrite !store_sample_other by discriminate. reflexivity.
  - exists v4. split; [exact H4 | ].
    rewrite store_sample_same.
    rewrite !store_sample_other by discriminate. reflexivity.
  - apply elem_of_nil in Hkey. contradiction.
Qed.

(** [X8] With the models loaded and a detection whose landmark set stops
    short of the left eyebrow (at most 22 points), the frame returns
    level 0.0, label Low and the number of detections; it refreshes the
    detection cache and changes neither the feature histories, the
    smoothed level, the frame counter nor the emotion label. *)
Theorem incomplete_landmarks_early_return (libm_tanh : float -> float)
    (libm_hypot : float -> float -> float) (libm_exp : float -> float)
    (fr : Frame) (g : Models * Estimator) (rect : bbox) (rest : list bbox) :
  (_ensure_models_loaded (load fr) g.1).2 = true ->
  detections fr = rect :: rest ->
  length (shape_np fr) <= 22 ->
  let r := compute_stress_from_frame libm_tanh libm_hypot libm_exp fr g in
  r.2 = {| level := 0.0; label := "Low";
           faces := Z.of_nat (S (length rest)) |} /\
  r.1.2 = cache_detection rect (shape_np fr) g.2.
Proof.
  intros Hok Hdet Hlen r. unfold r. rewrite compute_stress_spec, Hok. simpl.
  pose proof (accurate_body_spec libm_tanh libm_hypot fr g.2) as H.
  cbv zeta in H. rewrite Hdet in H.
  destruct (Nat.leb_spec (length (shape_np fr)) 22) as [_|Hgt]; [ | lia ].
  rewrite H. simpl. auto.
Qed.

(** ** What persists across frames *)

Lemma accurate_body_ema (libm_tanh : float -> float)
    (libm_hypot : float -> float -> float) (fr : Frame) (st : Estimator) :
  is_Some (_ema_level st) ->
  is_Some (_ema_level (accurate_body libm_tanh libm_hypot fr st).1).
Proof.
  intros Hs.
  pose proof (accurate_body_spec libm_tanh libm_hypot fr st) as H.
  cbv zeta in H.
  destruct (detections fr) as [|rect rest]; [rewrite H; exact Hs | ].
  destruct (_ <=? _)%nat; [rewrite H; exact Hs | ].
  destruct H as (v1 & v2 & v3 & v4 & fused & _ & _ & _ & _ & ->). simpl. eauto.
Qed.

(** [X9] The smoothed level is never reset: once [_ema_level] holds a
    value it still holds one after any sequence of frames, whether they
    show a face or not and whichever path handles them. *)
Theorem ema_level_never_reset (libm_tanh : float -> float)
    (libm_hypot : float -> float -> float) (libm_exp : float -> float)
    (frames : list Frame) (g : Models * Estimator) :
  is_Some (_ema_level g.2) ->
  is_Some (_ema_level
             (process_frames libm_tanh libm_hypot libm_exp frames g).2).
Proof.
  unfold process_frames. revert g.
  induction frames as [|fr frames IH]; intros g Hs; simpl; [exact Hs | ].
  apply IH. rewrite compute_stress_spec.
  destruct (_ensure_models_loaded _ _).2; simpl; [ | exact Hs ].
  apply accurate_body_ema. exact Hs.
Qed.

Lemma emotion_gate_cases (fr : Frame) (bb : bbox) (count : Z) (last : string) :
  let r := emotion_gate fr bb count last in
  r.1.1 = r.2 /\
  (r = (last, count, last) \/
   r = (last, ((count + 1) mod 1000000)%Z, last) \/
   exists i lbl,
     emotion_argmax fr = Some i /\ EMOTIONS !! i = Some lbl /\
     ((((count + 1) mod 1000000) mod 5)%Z = 0%Z \/ last = "unknown") /\
     r = (lbl, ((count + 1) mod 1000000)%Z, lbl)).
Proof.
  unfold emotion_gate. destruct bb as [[[x y] w] h].
  destruct (_ =? 0)%Z; [simpl; auto | ].
  destruct (((count + 1) mod 1000000) mod 5 =? 0)%Z eqn:E5;
    destruct (String.eqb_spec last "unknown") as [Eu|Eu]; simpl;
    try (destruct (emotion_argmax fr) as [i|]; [ | simpl; auto ];
         destruct (EMOTIONS !! i) as [lbl|] eqn:El; [ | simpl; auto ];
         split; [reflexivity | ]; right; right; exists i, lbl;
         repeat split; auto; left; apply Z.eqb_eq; exact E5).
  auto.
Qed.

(** [X10] The emotion query is throttled and sticky: the label used for
    the frame is the one kept in [_last_emotion_label]; it differs from
    the previous label only when the classifier was due (the advanced
    counter is a multiple of 5, or the previous label is "unknown") and
    answered with a valid class index, the new label being that class. *)
Theorem emotion_gate_throttled (fr : Frame) (bb : bbox) (count : Z)
    (last : string) :
  let r := emotion_gate fr bb count last in
  r.1.1 = r.2 /\
  (r.2 <> last ->
   r.1.2 = ((count + 1) mod 1000000)%Z /\
   ((r.1.2 mod 5)%Z = 0%Z \/ last = "unknown") /\
   exists i, emotion_argmax fr = Some i /\ EMOTIONS !! i = Some r.2).
Proof.
  intros r. destruct (emotion_gate_cases fr bb count last) as [H1 H2].
  fold r in H1, H2. split; [exact H1 | ].
  intros Hne.
  destruct H2 as [H | [H | (i & lbl & Ha & Hl & Hd & H)]];
    rewrite H in *; simpl in *; try congruence.
  eauto.
Qed.

Lemma accurate_body_emotion (libm_tanh : float -> float)
    (libm_hypot : float -> float -> float) (fr : Frame) (st : Estimator) :
  let st' := (accurate_body libm_tanh libm_hypot fr st).1 in
  (_last_emotion_label st' = _last_emotion_label st \/
   _last_emotion_label st' ∈ EMOTIONS) /\
  (_frame_count st' = _frame_count st \/
   _frame_count st' = ((_frame_count st + 1) mod 1000000)%Z).
Proof.
  pose proof (accurate_body_spec libm_tanh libm_hypot fr st) as H.
  cbv zeta in H. cbv zeta.
  destruct (detections fr) as [|rect rest]; [rewrite H; auto | ].
  destruct (_ <=? _)%nat; [rewrite H; auto | ].
  destruct H as (v1 & v2 & v3 & v4 & fused & _ & _ & _ & _ & ->). simpl.
  destruct (emotion_gate_cases fr rect (_frame_count st) (_last_emotion_label st))
    as [_ [H | [H | (i & lbl & Ha & Hl & Hd & H)]]];
    rewrite H; simpl; auto.
  split; [right | auto]. apply list_elem_of_lookup. eauto.
Qed.

Lemma compute_stress_emotion (libm_tanh : float -> float)
    (libm_hypot : float -> float -> float) (libm_exp : float -> float)
    (fr : Frame) (g : Models * Estimator) :
  let st' := (compute_stress_from_frame libm_tanh libm_hypot libm_exp fr g).1.2 in
  (_last_emotion_label st' = _last_emotion_label g.2 \/
   _last_emotion_label st' ∈ EMOTIONS) /\
  (_frame_count st' = _frame_count g.2 \/
   _frame_count st' = ((_frame_count g.2 + 1) mod 1000000)%Z).
Proof.
  cbv zeta. rewrite compute_stress_spec.
  destruct (_ensure_models_loaded _ _).2; simpl; [ | auto ].
  apply accurate_body_emotion.
Qed.

(** [X11] Over any sequence of frames the remembered emotion label is
    either the one the run started with or one of the seven class names;
    so once it is no longer "unknown" it never is again. *)
Theorem emotion_label_never_unknown_again (libm_tanh : float -> float)
    (libm_hypot : float -> float -> float) (libm_exp : float -> float)
    (frames : list Frame) (g : Models * Estimator) :
  let st' := (process_frames libm_tanh libm_hypot libm_exp frames g).2 in
  (_last_emotion_label st' = _last_emotion_label g.2 \/
   _last_emotion_label st' ∈ EMOTIONS) /\
  (_last_emotion_label g.2 <> "unknown" ->
   _last_emotion_label st' <> "unknown").
Proof.
  cbv zeta.
  assert (G : _last_emotion_label
                (process_frames libm_tanh libm_hypot libm_exp frames g).2
              = _last_emotion_label g.2 \/
              _last_emotion_label
                (process_frames libm_tanh libm_hypot libm_exp frames g).2
              ∈ EMOTIONS).
  { unfold process_frames. revert g.
    induction frames as [|fr frames IH]; intros g; simpl; [auto | ].
    destruct (IH (compute_stress_from_frame libm_tanh libm_hypot libm_exp fr g).1)
      as [E | E]; [ | auto ].
    rewrite E.
    destruct (compute_stress_emotion libm_tanh libm_hypot libm_exp fr g)
      as [[E' | E'] _]; [left | right]; exact E'. }
  split; [exact G | ].
  intros Hne. destruct G as [-> | G]; [exact Hne | ].
  intros Hu. rewrite Hu in G. unfold EMOTIONS in G.
  repeat (apply elem_of_cons in G as [G | G]; [discriminate G | ]).
  apply elem_of_nil in G. exact G.
Qed.

(** [X12] Over any sequence of frames processed from the initial globals
    the frame counter stays within 0 <= [_frame_count] < 1000000. *)
Theorem frame_count_in_range (libm_tanh : float -> float)
    (libm_hypot : float -> float -> float) (libm_exp : float -> float)
    (frames : list Frame) (m : Models) :
  let st' := (process_frames libm_tanh libm_hypot libm_exp frames
                             (m, initial_estimator)).2 in
  (0 <= _frame_count st' < 1000000)%Z.
Proof.
  cbv zeta.
  assert (G : forall g, (0 <= _frame_count g.2 < 1000000)%Z ->
    (0 <= _frame_count
            (process_frames libm_tanh libm_hypot libm_exp frames g).2
     < 1000000)%Z).
  { unfold process_frames. induction frames as [|fr frames IH]; intros g Hg; simpl.
    - exact Hg.
    - apply IH.
      destruct (compute_stress_emotion libm_tanh libm_hypot libm_exp fr g)
        as [_ [E | E]]; rewrite E; [exact Hg | ].
      apply Z.mod_pos_bound. lia. }
  apply G. simpl. lia.
Qed.

(** ** Feature Normalizer and metric defaults *)

(** [X13] Whatever the value and the stored history, the normalizer
    returns a level within [0, 1], and either the pair
    (0.5, "initializing") or a label that is [level_to_label] of the
    returned level. *)
Theorem normalize_points_output (libm_tanh : float -> float)
    (value : float) (key : string) (hists : gmap string (list float)) :
  let r := (_normalize_points libm_tanh value key hists).2 in
  in_unit_interval r.1 /\
  (r = (0.5%float, "initializing") \/ r.2 = level_to_label r.1).
Proof.
  intros r. split; [apply normalize_points_level_range | ].
  unfold r, _normalize_points.
  destruct (_ || _); [left; reflexivity | ].
  rewrite clamp01_not_nan. right. reflexivity.
Qed.

(** [X14] A metric that cannot be computed falls back to its default:
    [_ear] returns 0.3 for an eye that does not have exactly 6 points,
    and [_mar] returns 0.4 for a mouth with fewer than 11 points. *)
Theorem degraded_metric_defaults (libm_hypot : float -> float -> float)
    (eye_pts mouth : list point) :
  (length eye_pts <> 6 -> _ear libm_hypot eye_pts = 0.3%float) /\
  (length mouth <= 10 -> _mar libm_hypot mouth = 0.4%float).
Proof.
  split.
  - intros H. unfold _ear.
    do 7 (destruct eye_pts as [|? eye_pts]; try reflexivity).
    simpl in H. lia.
  - intros H. unfold _mar.
    rewrite (lookup_ge_None_2 mouth 10 H).
    destruct (mouth !! 0), (mouth !! 6), (mouth !! 2); reflexivity.
Qed.

(** ** Session Controller over request sequences *)

Lemma count_effects_app (p : effect -> bool) (a b : list effect) :
  count_effects p (a ++ b) = count_effects p a + count_effects p b.
Proof. unfold count_effects. rewrite List.filter_app, length_app. reflexivity. Qed.

Lemma handle_balanced (r : request) (s : Session) (m : Models) :
  session_consistent s ->
  let out := handle r (s, m) in
  session_consistent out.1.1.1 /\
  count_effects is_thread_start out.1.2 + Nat.b2n (running s) =
  count_effects is_release out.1.2 + Nat.b2n (running out.1.1.1).
Proof.
  unfold session_consistent. intros Hc.
  destruct r as [index opened env | ]; simpl.
  - unfold start_camera.
    destruct (running s) eqn:Er.
    + destruct (_ensure_models_loaded env m); simpl. rewrite Er. auto.
    + destruct opened; simpl.
      * destruct (_ensure_models_loaded env m); simpl.
        split; [split; eauto | reflexivity].
      * rewrite Er. auto.
  - unfold stop_camera. simpl. split.
    + split; [discriminate | intros [x Hx]; discriminate].
    + destruct (cap s) as [idx|] eqn:Ec; destruct (running s) eqn:Er;
        try reflexivity.
      * exfalso. assert (H : false = true) by (apply Hc; eauto). discriminate.
      * exfalso. destruct Hc as [Hc _]. destruct (Hc eq_refl) as [x Hx].
        discriminate.
Qed.

Lemma serve_balanced (rs : list request) :
  forall g : Session * Models,
    session_consistent g.1 ->
    let out := serve rs g in
    session_consistent out.1.1 /\
    count_effects is_thread_start out.2 + Nat.b2n (running g.1) =
    count_effects is_release out.2 + Nat.b2n (running out.1.1).
Proof.
  induction rs as [|r rs IH]; intros [s m] Hc; simpl.
  - auto.
  - pose proof (handle_balanced r s m Hc) as H. cbv zeta in H.
    destruct (handle r (s, m)) as [[[s1 m1] made] resp]. simpl in H.
    destruct H as [Hc1 Hn1].
    specialize (IH (s1, m1) Hc1). cbv zeta in IH.
    destruct (serve rs (s1, m1)) as [[s2 m2] later]. simpl in *.
    destruct IH as [Hc2 Hn2]. split; [exact Hc2 | ].
    rewrite !count_effects_app. lia.
Qed.

(** [X15] Over any sequence of Start and Stop requests served from the
    initial globals, [running] is set exactly while a capture device is
    held, and the worker threads started exceed the devices released by
    one while running and by none otherwise: a thread is started only
    after the previous device has been released. *)
Theorem single_session_invariant (rs : list request) (m : Models) :
  let out := serve rs (initial_session, m) in
  session_consistent out.1.1 /\
  count_effects is_thread_start out.2 =
  count_effects is_release out.2 + Nat.b2n (running out.1.1).
Proof.
  intros out.
  destruct (serve_balanced rs (initial_session, m)) as [Hc Hn].
  { split; [discriminate | intros [x Hx]; discriminate]. }
  fold out in Hc, Hn. split; [exact Hc | ]. simpl in Hn. lia.
Qed.

(** [X16] Stop always answers "stopped" and ends with no device held and
    [running] cleared; it releases the device exactly when one was held,
    and a second Stop changes nothing and releases nothing. *)
Theorem stop_camera_idempotent (s : Session) :
  let r := stop_camera s in
  r.2 = Stopped 200 /\
  running r.1.1 = false /\ cap r.1.1 = None /\
  cam_index r.1.1 = cam_index s /\
  r.1.2 = match cap s with Some idx => [CapRelease idx] | None => [] end /\
  stop_camera r.1.1 = (r.1.1, [], Stopped 200).
Proof. simpl. auto 10. Qed.

(** [X17] A Start that fails to open the device leaves no trace: served
    on a stopped session it answers 400 and the requests after it run
    exactly as if it had not been sent, apart from the failed open
    itself. *)
Theorem failed_start_is_noop (index : option Z) (env : load_outcome)
    (rs : list request) (s : Session) (m : Models) :
  running s = false ->
  (handle (Start index false env) (s, m)).2 =
    FailedToOpen 400 (default (cam_index s) index) /\
  serve (Start index false env :: rs) (s, m) =
    ((serve rs (s, m)).1,
     VideoCapture (default (cam_index s) index) :: (serve rs (s, m)).2).
Proof.
  intros Hr. simpl. unfold start_camera. rewrite Hr. simpl.
  split; [reflexivity | ].
  destruct (serve rs (s, m)) as [g later]. reflexivity.
Qed.

(** [X18] The device index of a successful Start is remembered across
    Stop: a later Start without an index opens the same device again. *)
Theorem start_reuses_last_index (i : Z) (opened : bool)
    (env1 env2 : load_outcome) (s : Session) (m : Models) :
  running s = false ->
  (serve [Start (Some i) true env1; Stop; Start None opened env2] (s, m)).2 =
  [VideoCapture i; ThreadStart; CapRelease i; VideoCapture i]
  ++ (if opened then [ThreadStart] else []).
Proof.
  intros Hr. simpl. unfold start_camera. rewrite Hr. simpl.
  destruct (_ensure_models_loaded env1 m) as [m1 ready1]. simpl.
  destruct opened; simpl.
  - destruct (_ensure_models_loaded env2 m1). reflexivity.
  - reflexivity.
Qed.

(** ** Summary event stream over poll sequences *)

Lemma gen_sublist (polls : list Summary) :
  forall last : option Summary, gen polls last `sublist_of` polls.
Proof.
  induction polls as [|s polls IH]; intros last; simpl.
  - apply sublist_nil_l.
  - unfold gen_step. destruct (summary_ne s last); simpl.
    + apply sublist_skip, IH.
    + apply sublist_cons, IH.
Qed.

Lemma last_emitted_app (out : list Summary) (s : Summary)
    (init : option Summary) :
  last_emitted (out ++ [s]) init = Some s.
Proof. unfold last_emitted. rewrite last_snoc. reflexivity. Qed.

(** After a poll of [s] the value of [last] is [s] itself or a summary
    that [s] compares equal to. *)
Lemma gen_fresh (polls : list Summary) (s : Summary) (init : option Summary) :
  exists l,
    last_emitted (gen (polls ++ [s]) init) init = Some l /\
    (l = s \/ summary_eqb s l = true).
Proof.
  rewrite gen_snoc.
  destruct (summary_ne s (last_emitted (gen polls init) init)) eqn:E.
  - exists s. rewrite last_emitted_app. auto.
  - rewrite app_nil_r. unfold summary_ne in E.
    destruct (last_emitted (gen polls init) init) as [l|]; [ | discriminate ].
    exists l. split; [reflexivity | ]. right.
    apply negb_false_iff. exact E.
Qed.

(** [X19] The stream sends a subsequence of what it polls, and stays
    current: it never invents or reorders a summary, and after every poll
    the last summary sent is the polled one or compares equal to it. *)
Theorem stream_current (polls : list Summary) (s : Summary) :
  gen (polls ++ [s]) None `sublist_of` polls ++ [s] /\
  exists l,
    last (gen (polls ++ [s]) None) = Some l /\
    (l = s \/ summary_eqb s l = true).
Proof.
  split; [apply gen_sublist | ].
  destruct (gen_fresh polls s None) as (l & Hl & Hs).
  exists l. split; [ | exact Hs ].
  unfold last_emitted in Hl.
  destruct (last (gen (polls ++ [s]) None)); [exact Hl | discriminate].
Qed.

Lemma summary_eqb_refl (s : Summary) :
  is_nan (level s) = false -> summary_eqb s s = true.
Proof.
  intros H. unfold summary_eqb, is_nan in *. apply negb_false_iff in H.
  rewrite H, String.eqb_refl, Z.eqb_refl. reflexivity.
Qed.

(** [X20] A summary that does not change is sent once: however many
    further polls see the same summary (whose level is not NaN, as for
    every summary the estimator returns), nothing more is sent. *)
Theorem stream_unchanged_sent_once (polls : list Summary) (s : Summary)
    (n : nat) :
  is_nan (level s) = false ->
  gen (polls ++ s :: replicate n s) None = gen (polls ++ [s]) None.
Proof.
  intros Hs. induction n as [|n IH]; [reflexivity | ].
  change (s :: replicate (S n) s) with (replicate (S (S n)) s).
  rewrite replicate_S_end.
  change (replicate (S n) s) with (s :: replicate n s).
  rewrite app_assoc, gen_snoc, IH.
  destruct (gen_fresh polls s None) as (l & -> & [-> | Hl]); simpl.
  - rewrite (summary_eqb_refl s Hs). simpl. apply app_nil_r.
  - rewrite Hl. simpl. apply app_nil_r.
Qed.

(** ** Capture worker *)

Lemma compute_stress_wf (libm_tanh : float -> float)
    (libm_hypot : float -> float -> float) (libm_exp : float -> float)
    (fr : Frame) (g : Models * Estimator) :
  summary_wf (compute_stress_from_frame libm_tanh libm_hypot libm_exp fr g).2.
Proof.
  unfold summary_wf. rewrite compute_stress_spec.
  destruct (_ensure_models_loaded _ _).2; simpl.
  - split; [apply accurate_body_level_range | apply accurate_body_label].
  - split; [apply heuristic_level_range | apply heuristic_label].
Qed.

Lemma camera_worker_step_spec (libm_tanh : float -> float)
    (libm_hypot : float -> float -> float) (libm_exp : float -> float)
    (read : option Frame) (w : World) :
  let w' := camera_worker_step libm_tanh libm_hypot libm_exp read w in
  session w' = session w /\
  (summary_wf (latest_summary w) -> summary_wf (latest_summary w')) /\
  (is_Some (cap (session w)) ->
   (models w', estimator w') =
   process_frames libm_tanh libm_hypot libm_exp (frames_read [read])
                  (models w, estimator w)).
Proof.
  unfold camera_worker_step, process_frames, frames_read.
  destruct (cap (session w)) as [idx|].
  - destruct read as [fr|]; simpl; [ | auto ].
    pose proof (compute_stress_wf libm_tanh libm_hypot libm_exp fr
                  (models w, estimator w)) as Hwf.
    destruct (compute_stress_from_frame _ _ _ fr _) as [[m st] s]. simpl. auto.
  - simpl. split; [reflexivity | ]. split; [auto | ].
    intros Hc. destruct Hc as [x Hx]. discriminate.
Qed.

Lemma frames_read_cons (read : option Frame) (reads : list (option Frame)) :
  frames_read (read :: reads) = frames_read [read] ++ frames_read reads.
Proof. unfold frames_read. destruct read; reflexivity. Qed.

Lemma worker_fold (libm_tanh : float -> float)
    (libm_hypot : float -> float -> float) (libm_exp : float -> float)
    (reads : list (option Frame)) :
  forall w : World,
    let w' := fold_left (fun w read =>
                camera_worker_step libm_tanh libm_hypot libm_exp read w) reads w in
    session w' = session w /\
    (summary_wf (latest_summary w) -> summary_wf (latest_summary w')) /\
    (is_Some (cap (session w)) ->
     (models w', estimator w') =
     process_frames libm_tanh libm_hypot libm_exp (frames_read reads)
                    (models w, estimator w)).
Proof.
  induction reads as [|read reads IH]; intros w.
  - simpl. auto.
  - cbn [fold_left]. cbv zeta.
    destruct (camera_worker_step_spec libm_tanh libm_hypot libm_exp read w)
      as (Hs & Hwf & Hp).
    destruct (IH (camera_worker_step libm_tanh libm_hypot libm_exp read w))
      as (Hs' & Hwf' & Hp').
    split; [congruence | ]. split; [auto | ].
    intros Hc. rewrite (frames_read_cons read reads).
    rewrite Hp' by (rewrite Hs; exact Hc). rewrite (Hp Hc).
    unfold process_frames. rewrite fold_left_app. reflexivity.
Qed.

(** [X21] The capture worker never touches the session globals, and what
    it publishes is always well formed: if [latest_summary] has a level
    within [0, 1] and the matching label before the worker runs, it has
    after any number of iterations, whatever the camera delivers. *)
Theorem worker_publishes_well_formed (libm_tanh : float -> float)
    (libm_hypot : float -> float -> float) (libm_exp : float -> float)
    (reads : list (option Frame)) (w : World) :
  summary_wf (latest_summary w) ->
  let w' := camera_worker libm_tanh libm_hypot libm_exp reads w in
  summary_wf (latest_summary w') /\ session w' = session w.
Proof.
  intros Hwf w'. unfold w', camera_worker.
  destruct (running (session w)); [ | auto ].
  destruct (worker_fold libm_tanh libm_hypot libm_exp reads w) as (Hs & H & _).
  auto.
Qed.

(** [X22] A failed read costs nothing but the iteration: with the device
    held and [running] set, the estimator globals after the worker has
    gone through a sequence of reads are those of the estimator run on
    the frames that were delivered, the failed reads being skipped. *)
Theorem worker_skips_failed_reads (libm_tanh : float -> float)
    (libm_hypot : float -> float -> float) (libm_exp : float -> float)
    (reads : list (option Frame)) (w : World) :
  running (session w) = true ->
  is_Some (cap (session w)) ->
  let w' := camera_worker libm_tanh libm_hypot libm_exp reads w in
  (models w', estimator w') =
  process_frames libm_tanh libm_hypot libm_exp (frames_read reads)
                 (models w, estimator w).
Proof.
  intros Hr Hc w'. unfold w', camera_worker. rewrite Hr.
  destruct (worker_fold libm_tanh libm_hypot libm_exp reads w) as (_ & _ & H).
  apply H. exact Hc.
Qed.

(** ** Video stream *)

(** [X23] The video stream yields one part per published frame that
    encodes, in order, and nothing while no frame is published or when
    encoding fails; every part is the boundary line, the JPEG content
    type, a blank line, the JPEG bytes and a line end, so it is 39 bytes
    longer than the JPEG and never empty. *)
Theorem video_parts_framed (polls : list video_poll) :
  video_gen polls = map video_part (encoded_jpgs polls) /\
  Forall (fun part => 39 <= length part) (video_gen polls) /\
  (forall jpg, length (video_part jpg) = 39 + length jpg /\
               take 9 (video_part jpg) = boundary ++ CRLF).
Proof.
  assert (Hlen : forall jpg, length (video_part jpg) = 39 + length jpg).
  { intros jpg. unfold video_part. rewrite !length_app. simpl. lia. }
  assert (Hgen : video_gen polls = map video_part (encoded_jpgs polls)).
  { induction polls as [|[| |jpg] polls IH]; simpl; congruence. }
  split; [exact Hgen | split ].
  - rewrite Hgen. apply Forall_forall. intros part Hin.
    apply list_elem_of_In, in_map_iff in Hin as (jpg & <- & _).
    rewrite Hlen. lia.
  - intros jpg. split; [apply Hlen | reflexivity].
Qed.

(** ** Witnesses of the further properties *)

Lemma fallback_leaves_estimator_witness :
  (_ensure_models_loaded (load frame_one_face) missing_models).2 = false /\
  (compute_stress_from_frame sample_tanh sample_hypot sample_exp
     frame_one_face (missing_models, estimator_smoothed)).2
  = _heuristic_from_opencv sample_hypot sample_exp frame_one_face /\
  (compute_stress_from_frame sample_tanh sample_hypot sample_exp
     frame_one_face (missing_models, estimator_smoothed)).1.2
  = estimator_smoothed.
Proof.
  split; [reflexivity | ].
  exact (fallback_leaves_estimator sample_tanh sample_hypot sample_exp
           frame_one_face (missing_models, estimator_smoothed) eq_refl).
Defined.

Lemma other_histories_untouched_witness :
("default" ∉ feature_keys) /\
  _feature_histories
    (compute_stress_from_frame sample_tanh sample_hypot sample_exp
       frame_one_face (loaded_models, estimator_smoothed)).1.2 !! "default"
  = _feature_histories estimator_smoothed !! "default".
Proof.
  assert (H : "default" ∉ feature_keys) by compute_done.
  split; [exact H | ].
  exact (other_histories_untouched sample_tanh sample_hypot sample_exp
           frame_one_face (loaded_models, estimator_smoothed) "default" H).
Defined.

Lemma complete_landmarks_update_witness :
  (_ensure_models_loaded (load frame_one_face) loaded_models).2 = true /\
  0 < length (detections frame_one_face) /\
  22 < length (shape_np frame_one_face) /\
  exists ema,
    _ema_level
      (compute_stress_from_frame sample_tanh sample_hypot sample_exp
         frame_one_face (loaded_models, initial_estimator)).1.2 = Some ema /\
    level
      (compute_stress_from_frame sample_tanh sample_hypot sample_exp
         frame_one_face (loaded_models, initial_estimator)).2
    = py_max 0.0 (py_min 1.0 ema).
Proof.
  assert (H1 : 0 < length (detections frame_one_face)) by (vm_compute; lia).
  assert (H2 : 22 < length (shape_np frame_one_face)) by (vm_compute; lia).
  split; [reflexivity | ]. split; [exact H1 | ]. split; [exact H2 | ].
  exact (proj2 (complete_landmarks_update sample_tanh sample_hypot sample_exp
                  frame_one_face (loaded_models, initial_estimator)
                  eq_refl H1 H2)).
Defined.

Lemma incomplete_landmarks_early_return_witness :
  (_ensure_models_loaded (load frame_five_landmarks) loaded_models).2 = true /\
  detections frame_five_landmarks
  = [(100, 80, 200, 200)%Z; (400, 90, 120, 120)%Z] /\
  length (shape_np frame_five_landmarks) <= 22 /\
  (compute_stress_from_frame sample_tanh sample_hypot sample_exp
     frame_five_landmarks (loaded_models, estimator_smoothed)).2
  = {| level := 0.0; label := "Low"; faces := 2 |} /\
  (compute_stress_from_frame sample_tanh sample_hypot sample_exp
     frame_five_landmarks (loaded_models, estimator_smoothed)).1.2
  = cache_detection (100, 80, 200, 200)%Z (shape_np frame_five_landmarks)
                    estimator_smoothed.
Proof.
  assert (H : length (shape_np frame_five_landmarks) <= 22)
    by (vm_compute; lia).
  split; [reflexivity | ]. split; [reflexivity | ]. split; [exact H | ].
  exact (incomplete_landmarks_early_return sample_tanh sample_hypot sample_exp
           frame_five_landmarks (loaded_models, estimator_smoothed)
           (100, 80, 200, 200)%Z [(400, 90, 120, 120)%Z] eq_refl eq_refl H).
Defined.

Lemma ema_level_never_reset_witness :
  is_Some (_ema_level estimator_smoothed) /\
  is_Some (_ema_level
             (process_frames sample_tanh sample_hypot sample_exp
                [frame_no_face; frame_one_face; frame_five_landmarks]
                (missing_models, estimator_smoothed)).2).
Proof.
  assert (H : is_Some (_ema_level estimator_smoothed)) by (simpl; eauto).
  split; [exact H | ].
  exact (ema_level_never_reset sample_tanh sample_hypot sample_exp
           [frame_no_face; frame_one_face; frame_five_landmarks]
           (missing_models, estimator_smoothed) H).
Defined.

Lemma failed_start_is_noop_witness :
  running initial_session = false /\
  (handle (Start (Some 3%Z) false LoadOk) (initial_session, loaded_models)).2
  = FailedToOpen 400 3 /\
  serve [Start (Some 3%Z) false LoadOk; Stop] (initial_session, loaded_models)
  = ((serve [Stop] (initial_session, loaded_models)).1,
     VideoCapture 3 :: (serve [Stop] (initial_session, loaded_models)).2).
Proof.
  split; [reflexivity | ].
  exact (failed_start_is_noop (Some 3%Z) LoadOk [Stop] initial_session
           loaded_models eq_refl).
Defined.

Lemma start_reuses_last_index_witness :
  running initial_session = false /\
  (serve [Start (Some 2%Z) true LoadOk; Stop; Start None true LoadOk]
         (initial_session, loaded_models)).2
  = [VideoCapture 2; ThreadStart; CapRelease 2; VideoCapture 2; ThreadStart].
Proof.
  split; [reflexivity | ].
  exact (start_reuses_last_index 2%Z true LoadOk LoadOk initial_session
           loaded_models eq_refl).
Defined.

Lemma stream_unchanged_sent_once_witness :
  is_nan (level initial_summary) = false /\
  gen ([] ++ initial_summary :: replicate 3 initial_summary) None
  = gen ([] ++ [initial_summary]) None.
Proof.
  split; [reflexivity | ].
  exact (stream_unchanged_sent_once [] initial_summary 3 eq_refl).
Defined.

Lemma worker_publishes_well_formed_witness :
  summary_wf (latest_summary world_running) /\
  summary_wf
    (latest_summary
       (camera_worker sample_tanh sample_hypot sample_exp
          [None; Some frame_one_face; Some frame_no_face] world_running)) /\
  session
    (camera_worker sample_tanh sample_hypot sample_exp
       [None; Some frame_one_face; Some frame_no_face] world_running)
  = session world_running.
Proof.
  assert (H : summary_wf (latest_summary world_running))
    by (split; [split | ]; reflexivity).
  split; [exact H | ].
  exact (worker_publishes_well_formed sample_tanh sample_hypot sample_exp
           [None; Some frame_one_face; Some frame_no_face] world_running H).
Defined.

Lemma worker_skips_failed_reads_witness :
  running (session world_running) = true /\
  is_Some (cap (session world_running)) /\
  (models
     (camera_worker sample_tanh sample_hypot sample_exp
        [None; Some frame_one_face; None] world_running),
   estimator
     (camera_worker sample_tanh sample_hypot sample_exp
        [None; Some frame_one_face; None] world_running))
  = process_frames sample_tanh sample_hypot sample_exp
      (frames_read [None; Some frame_one_face; None])
      (models world_running, estimator world_running).
Proof.
  assert (H : is_Some (cap (session world_running))) by (simpl; eauto).
  split; [reflexivity | ]. split; [exact H | ].
  exact (worker_skips_failed_reads sample_tanh sample_hypot sample_exp
           [None; Some frame_one_face; None] world_running eq_refl H).
Defined.

(** ** The emotion override inside the accurate pipeline *)

(** [C4] In the accurate pipeline, on a frame with a detection and both
    eyebrow tips, the level that enters the smoothing is the fused level
    after the emotion adjustment: the new [_ema_level] is the moving
    average of the old one and [emotion_adjust label level_fused], where
    [label] is the label of the emotion query and [level_fused] the
    weighted fusion of the four normalized features, and the returned
    level is its clamp.  Under "scared" and "sad" the adjusted level is
    [max(level_fused, 0.75)]: exactly 0.75 when the fused level is below
    0.75, the fused level when it is at or above 0.75; under any other
    label it is the fused level; it is never lower than the fused
    level. *)
Theorem emotion_override_in_accurate_path (libm_tanh : float -> float)
    (libm_hypot : float -> float -> float) (fr : Frame) (st : Estimator)
    (rect : bbox) (rest : list bbox) (left_tip right_tip : point) :
  detections fr = rect :: rest ->
  last (py_slice (FACIAL_LANDMARKS_IDXS "left_eyebrow") (shape_np fr))
  = Some left_tip ->
  head (py_slice (FACIAL_LANDMARKS_IDXS "right_eyebrow") (shape_np fr))
  = Some right_tip ->
  let level_fused :=
    (fused_features libm_tanh libm_hypot fr rect left_tip right_tip
                    (_feature_histories st)).2 in
  let emotion_label :=
    (emotion_gate fr rect (_frame_count st) (_last_emotion_label st)).1.1 in
  let adjusted := emotion_adjust emotion_label level_fused in
  let r := accurate_body libm_tanh libm_hypot fr st in
  _ema_level r.1 = Some (ema_update (_ema_level st) adjusted) /\
  level r.2 = py_max 0.0 (py_min 1.0 (ema_update (_ema_level st) adjusted)) /\
  ((emotion_label = "scared" \/ emotion_label = "sad") ->
     adjusted = py_max level_fused 0.75 /\
     ((level_fused <? 0.75)%float = true -> adjusted = 0.75%float) /\
     (geb level_fused 0.75 = true -> adjusted = level_fused)) /\
  (~ (emotion_label = "scared" \/ emotion_label = "sad") ->
     adjusted = level_fused) /\
  (adjusted <? level_fused)%float = false.
Proof.
  intros Hdet Hl Hr level_fused emotion_label adjusted r.
  split; [ | split; [ | exact (emotion_override_only_raises emotion_label level_fused) ] ];
    unfold r, adjusted, emotion_label, level_fused, accurate_body, fused_features;
    rewrite Hdet; destruct rect as [[[fx fy] fw] fh]; cbv zeta;
    rewrite Hl, Hr;
    cbn [_feature_histories _ema_level _frame_count _last_emotion_label];
    repeat match goal with
           | |- context [_normalize_points ?t ?v ?k ?h] =>
               destruct (_normalize_points t v k h) as [? [? ?]]
           end;
    destruct (emotion_gate fr (fx, fy, fw, fh) (_frame_count st)
                           (_last_emotion_label st)) as [[lbl cnt] stored];
    reflexivity.
Qed.

(** ** The stream never repeats a summary *)

Lemma gen_elem_of (polls : list Summary) :
  forall (last : option Summary) (x : Summary),
    x ∈ gen polls last -> x ∈ polls.
Proof.
  induction polls as [|s polls IH]; intros last x; simpl.
  - intros H. exact H.
  - unfold gen_step. destruct (summary_ne s last); simpl; intros H.
    + apply elem_of_cons in H as [-> | H]; [left | right; eapply IH; exact H].
    + right. eapply IH. exact H.
Qed.

(** [C9] Over any sequence of polled summaries whose levels are not NaN
    (as the level of every summary the estimator returns), the stream
    never yields the same summary twice in a row: two consecutive yields
    are different summaries, and they do not even compare equal with
    [==].  A poll adds a yield only if the polled summary differs from the
    last one yielded: polling the last yielded summary again yields
    nothing, and in general the poll of [s] adds [s] exactly when
    [s != last] holds for the last yielded summary (the first poll always
    yields). *)
Theorem stream_no_identical_consecutive (polls : list Summary) :
  Forall (fun s => is_nan (level s) = false) polls ->
  no_identical_neighbours (gen polls None) /\
  no_repeat (gen polls None) /\
  (forall s, is_nan (level s) = false ->
             last (gen polls None) = Some s ->
             gen (polls ++ [s]) None = gen polls None) /\
  (forall s,
     gen (polls ++ [s]) None =
     gen polls None ++
       (if summary_ne s (last_emitted (gen polls None) None)
        then [s] else [])) /\
  (forall last s,
     (gen_step last s).2 = (if summary_ne s last then Some s else None)).
Proof.
  intros Hpolls.
  split; [ | split; [apply gen_no_repeat | split; [ | split ] ] ].
  - intros i a b Ha Hb Heq. subst b.
    pose proof (gen_no_repeat polls None i a a Ha Hb) as Hne.
    assert (Hin : a ∈ polls).
    { apply (gen_elem_of polls None). apply (list_elem_of_lookup_2 _ i). exact Ha. }
    rewrite Forall_forall in Hpolls.
    rewrite (summary_eqb_refl a (Hpolls a Hin)) in Hne. discriminate.
  - intros s Hs Hlast. rewrite gen_snoc.
    unfold last_emitted. rewrite Hlast. simpl.
    rewrite (summary_eqb_refl s Hs). simpl. apply app_nil_r.
  - intros s. apply gen_snoc.
  - intros last s. unfold gen_step. destruct (summary_ne s last); reflexivity.
Qed.

(** ** Witnesses of the override and of the stream *)

Lemma emotion_override_in_accurate_path_witness :
  detections frame_one_face = [(100, 80, 200, 200)%Z] /\
  last (py_slice (FACIAL_LANDMARKS_IDXS "left_eyebrow") (shape_np frame_one_face))
  = Some (188, 106)%Z /\
  head (py_slice (FACIAL_LANDMARKS_IDXS "right_eyebrow") (shape_np frame_one_face))
  = Some (188, 93)%Z /\
  (emotion_gate frame_one_face (100, 80, 200, 200)%Z
                (_frame_count initial_estimator)
                (_last_emotion_label initial_estimator)).1.1 = "sad" /\
  (fused_features sample_tanh sample_hypot frame_one_face
                  (100, 80, 200, 200)%Z (188, 106)%Z (188, 93)%Z
                  (_feature_histories initial_estimator)).2 = 0.49999999999999994%float /\
  _ema_level (accurate_body sample_tanh sample_hypot frame_one_face
                            initial_estimator).1 = Some 0.75%float /\
  level (accurate_body sample_tanh sample_hypot frame_one_face
                       initial_estimator).2 = 0.75%float.
Proof.
  split; [reflexivity | ]. split; [reflexivity | ]. split; [reflexivity | ].
  split; [reflexivity | ]. split; [vm_compute; reflexivity | ].
  destruct (emotion_override_in_accurate_path sample_tanh sample_hypot
              frame_one_face initial_estimator (100, 80, 200, 200)%Z []
              (188, 106)%Z (188, 93)%Z eq_refl eq_refl eq_refl)
    as (Hema & Hlevel & _).
  split; [rewrite Hema | rewrite Hlevel]; vm_compute; reflexivity.
Defined.

Lemma stream_no_identical_consecutive_witness :
  Forall (fun s => is_nan (level s) = false) polled_summaries /\
  no_identical_neighbours (gen polled_summaries None) /\
  gen polled_summaries None =
  [ {| level := 0.0; label := "Low"; faces := 0 |};
    {| level := 0.5; label := "Moderate"; faces := 1 |};
    {| level := 0.0; label := "Low"; faces := 0 |} ].
Proof.
  assert (H : Forall (fun s => is_nan (level s) = false) polled_summaries)
    by (repeat constructor).
  split; [exact H | ].
  split; [exact (proj1 (stream_no_identical_consecutive polled_summaries H)) | ].
  reflexivity.
Defined.
